(** * OpenCodeSpace developer tooling: build script, test runner, test fixtures

  A shallow embedding of [dev-build.py], [run_tests.py] and the
  [clean_environment] fixture of [tests/conftest.py], followed by the
  properties of the written specification that hold (or fail) on it.

  Modelling choices, shared by all three scripts:
  - the project tree is a finite list of entries [(path, kind)], paths being
    lists of components relative to the project root (which is also the
    working directory of both scripts);
  - an external process is an oracle [exec] of the world: given the command
    line and the current tree it either is not found on the search path or
    exits with a code and some captured standard error, and may change the
    tree;
  - Python exceptions ([CalledProcessError], [FileNotFoundError],
    [SystemExit]) are an error result, [try]/[except] is a handler;
  - every function returns, besides its result and the new world, the trace
    of what it did: processes spawned (with their outcome) and lines
    printed. *)

From stdpp Require Import gmap strings list.
From Stdlib Require Import ZArith Ascii DecimalString Lia.

Local Open Scope Z_scope.
Local Open Scope list_scope.

(** ** Python strings *)

Module Str.

(** [str(n)] for an [int]. *)
Definition of_Z (n : Z) : string := NilZero.string_of_int (Z.to_int n).

(** [str(n)] for a counter. *)
Definition of_nat (n : nat) : string := NilZero.string_of_uint (Nat.to_uint n).

(** [sep.join(l)]. *)
Definition join (sep : string) (l : list string) : string := String.concat sep l.

(** Truth value of a string: non-empty. *)
Definition nonempty (s : string) : bool :=
  match s with EmptyString => false | String _ _ => true end.

(** [s.startswith(p)]. *)
Definition startswith (p s : string) : bool := String.prefix p s.

(** [sub in s]. *)
Fixpoint contains (sub s : string) : bool :=
  startswith sub s ||
  match s with
  | EmptyString => false
  | String _ s' => contains sub s'
  end.

(** [s.replace(old, new)] for a non-empty [old]: occurrences are replaced
    left to right and do not overlap; [skip] counts the characters of the
    occurrence of [old] still to be dropped. *)
Fixpoint replace_from (old new : string) (skip : nat) (s : string) : string :=
  match s with
  | EmptyString => EmptyString
  | String c s' =>
      match skip with
      | S k => replace_from old new k s'
      | O =>
          if startswith old s
          then new +:+ replace_from old new (Nat.pred (String.length old)) s'
          else String c (replace_from old new O s')
      end
  end.

Definition replace (old new s : string) : string := replace_from old new O s.

(** [s.split(sep)] for a one-character separator; [cur] is the current
    piece, reversed. *)
Fixpoint split_go (sep : ascii) (cur : string) (s : string) : list string :=
  match s with
  | EmptyString => [String.rev cur]
  | String c s' =>
      if Ascii.eqb c sep
      then String.rev cur :: split_go sep EmptyString s'
      else split_go sep (String c cur) s'
  end.

Definition split (sep : ascii) (s : string) : list string :=
  split_go sep EmptyString s.

(** [fnmatch.fnmatchcase(name, pat)] for patterns made of literal
    characters, [*] (any run of characters, also a leading dot) and [?]
    (one character). Bracket classes do not occur in the scripts. *)
Fixpoint fnmatch (pat name : string) : bool :=
  match pat with
  | EmptyString => negb (nonempty name)
  | String c pat' =>
      if Ascii.eqb c "*" then
        (fix star (n : string) : bool :=
           fnmatch pat' n ||
           match n with
           | EmptyString => false
           | String _ n' => star n'
           end) name
      else
        match name with
        | EmptyString => false
        | String d name' =>
            (Ascii.eqb c "?" || Ascii.eqb c d) && fnmatch pat' name'
        end
  end.

(** Insertion sort by [String.leb], for [sorted(...)] on file names. *)
Fixpoint insert_sorted (x : string) (l : list string) : list string :=
  match l with
  | [] => [x]
  | y :: l' => if String.leb x y then x :: l else y :: insert_sorted x l'
  end.

Definition sorted (l : list string) : list string :=
  foldr insert_sorted [] l.

End Str.

(** ** The project tree *)

Module FS.

Inductive kind := File | Dir.

(** Components below the project root: [tests/conftest.py] is
    [["tests"; "conftest.py"]]. *)
Definition path := list string.

Definition entry := (path * kind)%type.

(** The tree: the existing paths with their kind, in directory-scan order. *)
Definition t := list entry.

Definition path_eqb (p q : path) : bool := bool_decide (p = q).

(** [p] is [q] or an ancestor of [q]. *)
Fixpoint is_prefix (p q : path) : bool :=
  match p, q with
  | [], _ => true
  | _ :: _, [] => false
  | a :: p', b :: q' => bool_decide (a = b) && is_prefix p' q'
  end.

(** [q] without its leading [base], when it lies below [base]. *)
Fixpoint below (base q : path) : option path :=
  match base, q with
  | [], _ => Some q
  | _ :: _, [] => None
  | a :: base', b :: q' => if bool_decide (a = b) then below base' q' else None
  end.

Fixpoint find (p : path) (f : t) : option kind :=
  match f with
  | [] => None
  | (q, k) :: f' => if path_eqb p q then Some k else find p f'
  end.

(** [Path.exists()] and [Path.is_dir()]. *)
Definition exists_ (p : path) (f : t) : bool :=
  match find p f with Some _ => true | None => false end.

Definition is_dir (p : path) (f : t) : bool :=
  match find p f with Some Dir => true | _ => false end.

(** [shutil.rmtree(p)]: [p] and everything below it. *)
Definition rmtree (p : path) (f : t) : t :=
  List.filter (fun e => negb (is_prefix p (fst e))) f.

(** [Path.unlink()]. *)
Definition unlink (p : path) (f : t) : t :=
  List.filter (fun e => negb (path_eqb p (fst e))) f.

(** A glob pattern: its components, and whether it ends in a separator
    (then it selects directories only). *)
Definition parse_pattern (pat : string) : list string * bool :=
  let parts := Str.split "/" pat in
  match List.rev parts with
  | EmptyString :: rparts => (List.rev rparts, true)
  | _ => (parts, false)
  end.

(** Component-wise match of a relative path against pattern components. *)
Fixpoint components_match (comps : list string) (rel : path) : bool :=
  match comps, rel with
  | [], [] => true
  | c :: comps', n :: rel' => Str.fnmatch c n && components_match comps' rel'
  | _, _ => false
  end.

(** Some suffix of [rel] matches: the pattern below any number of
    directories. *)
Fixpoint suffix_match (comps : list string) (rel : path) : bool :=
  components_match comps rel ||
  match rel with
  | [] => false
  | _ :: rel' => suffix_match comps rel'
  end.

Definition kind_ok (dir_only : bool) (k : kind) : bool :=
  negb dir_only || match k with Dir => true | File => false end.

Definition glob_selects (base : path) (pat : string) (e : entry) : bool :=
  let '(comps, dir_only) := parse_pattern pat in
  match below base (fst e) with
  | Some rel => components_match comps rel && kind_ok dir_only (snd e)
  | None => false
  end.

Definition rglob_selects (base : path) (pat : string) (e : entry) : bool :=
  let '(comps, dir_only) := parse_pattern pat in
  match below base (fst e) with
  | Some rel =>
      match rel with
      | [] => false
      | _ :: _ => suffix_match comps rel && kind_ok dir_only (snd e)
      end
  | None => false
  end.

(** [base.glob(pat)] and [base.rglob(pat)], as the list of paths found in
    the tree at the time of the call. *)
Definition glob (base : path) (pat : string) (f : t) : list path :=
  List.map fst (List.filter (glob_selects base pat) f).

Definition rglob (base : path) (pat : string) (f : t) : list path :=
  List.map fst (List.filter (rglob_selects base pat) f).

(** [Path.name]. *)
Definition name (p : path) : string := List.last p EmptyString.

End FS.

(** ** Processes, exceptions and the trace *)

Module Sys.

(** What [subprocess.run] meets: the executable is missing from the search
    path, or the process runs and exits. *)
Inductive proc_result :=
| NotFound
| Exited (returncode : Z) (stderr : string).

(** The world a script runs in. [exec cmd tree] is the outcome of running
    [cmd] and the tree it leaves. *)
Record World := {
  fs : FS.t;
  exec : list string → FS.t → proc_result * FS.t;
  pytest_importable : bool;
  executable : string;
}.

Definition with_fs (f : FS.t) (w : World) : World :=
  {| fs := f; exec := exec w;
     pytest_importable := pytest_importable w; executable := executable w |}.

(** The exceptions the scripts raise or catch. *)
Inductive exn :=
| CalledProcessError (cmd : list string) (returncode : Z) (stderr : string)
| FileNotFoundError
| SystemExit (code : Z).

(** A printed line, by the helper that printed it. *)
Inductive line :=
| Step (msg : string)
| Success (msg : string)
| Warning (msg : string)
| Error (msg : string)
| Plain (msg : string).

Inductive event :=
| Spawn (cmd : list string) (r : proc_result)
| Print (l : line).

Inductive res (A : Type) :=
| Ok (a : A)
| Raise (e : exn).
Arguments Ok {A} a.
Arguments Raise {A} e.

(** A computation: result, world afterwards, trace. *)
Definition M (A : Type) : Type := World → res A * World * list event.

Definition ret {A} (a : A) : M A := fun w => (Ok a, w, []).

Definition raise {A} (e : exn) : M A := fun w => (Raise e, w, []).

Definition bind {A B} (m : M A) (k : A → M B) : M B :=
  fun w =>
    match m w with
    | (Ok a, w1, t1) =>
        match k a w1 with
        | (r, w2, t2) => (r, w2, t1 ++ t2)
        end
    | (Raise e, w1, t1) => (Raise e, w1, t1)
    end.

(** [try: m except ...: h]: the handler [h] says which exceptions it
    catches. *)
Definition try_except {A} (m : M A) (h : exn → option (M A)) : M A :=
  fun w =>
    match m w with
    | (Ok a, w1, t1) => (Ok a, w1, t1)
    | (Raise e, w1, t1) =>
        match h e with
        | Some k =>
            match k w1 with
            | (r, w2, t2) => (r, w2, t1 ++ t2)
            end
        | None => (Raise e, w1, t1)
        end
    end.

Definition print (l : line) : M unit := fun w => (Ok tt, w, [Print l]).

Definition when (b : bool) (m : M unit) : M unit := if b then m else ret tt.

Definition sys_exit {A} (code : Z) : M A := raise (SystemExit code).

(** [Path(p).exists()] on the current tree. *)
Definition path_exists (p : FS.path) : M bool :=
  fun w => (Ok (FS.exists_ p (fs w)), w, []).

(** A run of file operations [g] of the script itself on the tree. *)
Definition on_tree {A} (g : FS.t → FS.t * A) : M A :=
  fun w => (Ok (snd (g (fs w))), with_fs (fst (g (fs w))) w, []).

Definition result {A} (x : res A * World * list event) : res A := fst (fst x).
Definition world {A} (x : res A * World * list event) : World := snd (fst x).
Definition trace {A} (x : res A * World * list event) : list event := snd x.

(** The completed process of [subprocess.run]. *)
Record CompletedProcess := { returncode : Z; stderr : string }.

(** [subprocess.run(cmd, check=check)]. *)
Definition subprocess_run (cmd : list string) (check : bool) : M CompletedProcess :=
  fun w =>
    match exec w cmd (fs w) with
    | (NotFound, _) => (Raise FileNotFoundError, w, [Spawn cmd NotFound])
    | (Exited c err, f') =>
        (if check && negb (c =? 0)
         then Raise (CalledProcessError cmd c err)
         else Ok {| returncode := c; stderr := err |},
         with_fs f' w, [Spawn cmd (Exited c err)])
    end.

(** [repr] of a list of plain strings, as [str(CalledProcessError)] shows
    the command. *)
Definition repr_list (l : list string) : string :=
  "[" +:+ Str.join ", " (List.map (fun s => "'" +:+ s +:+ "'") l) +:+ "]".

Definition str_exn (e : exn) : string :=
  match e with
  | CalledProcessError cmd c _ =>
      "Command '" +:+ repr_list cmd +:+ "' returned non-zero exit status "
        +:+ Str.of_Z c +:+ "."
  | FileNotFoundError => "[Errno 2] No such file or directory"
  | SystemExit c => Str.of_Z c
  end.

(** The exit status of the process, from what its [main] did. *)
Definition exit_code {A} (r : res A) : Z :=
  match r with
  | Ok _ => 0
  | Raise (SystemExit c) => c
  | Raise _ => 1
  end.

(** Commands spawned in a trace, in order. *)
Definition spawned (tr : list event) : list (list string) :=
  omap (fun ev => match ev with Spawn cmd _ => Some cmd | Print _ => None end) tr.

(** Headlines printed by [print_step] in a trace, in order. *)
Definition steps_printed (tr : list event) : list string :=
  omap (fun ev => match ev with Print (Step s) => Some s | _ => None end) tr.

End Sys.

#[global] Instance M_ret : MRet Sys.M := @Sys.ret.
#[global] Instance M_bind : MBind Sys.M := fun A B k m => Sys.bind m k.

(** ** dev-build.py: the build script *)

Module DevBuild.
Import Sys.

Definition print_step (message : string) : M unit := print (Step message).
Definition print_success (message : string) : M unit := print (Success message).
Definition print_warning (message : string) : M unit := print (Warning message).
Definition print_error (message : string) : M unit := print (Error message).

(** [cmd[0]]; every command of the script is a non-empty literal. *)
Definition cmd0 (cmd : list string) : string := List.hd EmptyString cmd.

Definition run_command (cmd : list string) (description : string)
    (check : bool) : M bool :=
  print (Plain ("Running: " +:+ Str.join " " cmd));;
  try_except
    (result ← subprocess_run cmd check;
     if returncode result =? 0 then
       print_success (description +:+ " completed successfully");;
       mret true
     else
       print_error (description +:+ " failed with exit code "
                      +:+ Str.of_Z (returncode result));;
       when (Str.nonempty (stderr result))
         (print (Plain ("Error output: " +:+ stderr result)));;
       mret false)
    (fun e =>
       match e with
       | CalledProcessError _ _ err =>
           Some (print_error (description +:+ " failed: " +:+ str_exn e);;
                 when (Str.nonempty err)
                   (print (Plain ("Error output: " +:+ err)));;
                 mret false)
       | FileNotFoundError =>
           Some (print_error ("Command not found: " +:+ cmd0 cmd);;
                 mret false)
       | SystemExit _ => None
       end).

Definition uv_version : list string := ["uv"; "--version"].

Definition check_uv_installed : M bool :=
  try_except
    (subprocess_run uv_version true;; mret true)
    (fun e =>
       match e with
       | CalledProcessError _ _ _ | FileNotFoundError => Some (mret false)
       | SystemExit _ => None
       end).

Definition test_req_path : FS.path := ["tests"; "test_requirements.txt"].

Definition install_dependencies : M bool :=
  print_step "Installing dependencies and package";;
  uv ← check_uv_installed;
  if negb uv then
    print_error "uv is not installed. Please install uv first:";;
    print (Plain "curl -LsSf https://astral.sh/uv/install.sh | sh");;
    mret false
  else
    ok ← run_command ["uv"; "pip"; "install"; "-r"; "requirements.txt"]
           "Installing requirements" true;
    if negb ok then mret false
    else
      found ← path_exists test_req_path;
      ok ← (if negb found then mret true
            else run_command ["uv"; "pip"; "install"; "-r";
                              "tests/test_requirements.txt"]
                   "Installing test requirements" true);
      if negb ok then mret false
      else
        ok ← run_command ["uv"; "pip"; "install"; "-e"; "."]
               "Installing package in development mode" true;
        if negb ok then mret false
        else
          print_success "All dependencies installed successfully";;
          mret true.

Definition run_tests (quick : bool) : M bool :=
  (if quick then print_step "Running quick tests"
   else print_step "Running full test suite");;
  let cmd := if quick then ["python"; "run_tests.py"; "--quick"]
             else ["python"; "run_tests.py"] in
  run_command cmd "Test execution" false.

Definition patterns_to_remove : list string :=
  [ "build/"; "dist/"; "*.egg-info/"; "__pycache__/"; "**/__pycache__/";
    ".pytest_cache/"; ".coverage"; "htmlcov/"; "*.pyc"; "**/*.pyc";
    "*.pyo"; "**/*.pyo" ].

(** The body of both inner loops: remove [p] if it still exists, and count
    it. *)
Definition remove_path (st : FS.t * nat) (p : FS.path) : FS.t * nat :=
  let '(f, removed_count) := st in
  if FS.exists_ p f then
    ((if FS.is_dir p f then FS.rmtree p f else FS.unlink p f),
     S removed_count)
  else st.

(** The paths one pattern yields on the tree [f]. *)
Definition paths_of (pattern : string) (f : FS.t) : list FS.path :=
  if Str.contains "**/" pattern
  then FS.rglob [] (Str.replace "**/" EmptyString pattern) f
  else FS.glob [] pattern f.

(** One turn of the outer loop. *)
Definition clean_pattern (st : FS.t * nat) (pattern : string) : FS.t * nat :=
  List.fold_left remove_path (paths_of pattern (fst st)) st.

(** The outer loop, from [removed_count = 0]. *)
Definition clean_patterns (f : FS.t) : FS.t * nat :=
  List.fold_left clean_pattern patterns_to_remove (f, O).

Definition clean_build : M bool :=
  print_step "Cleaning build artifacts";;
  removed_count ← on_tree clean_patterns;
  print_success ("Cleaned " +:+ Str.of_nat removed_count
                   +:+ " files/directories");;
  mret true.

Definition build_cmd : list string := ["python"; "-m"; "build"].
Definition setup_py_cmd : list string :=
  ["python"; "setup.py"; "sdist"; "bdist_wheel"].

Definition build_package : M bool :=
  print_step "Building package";;
  clean_build;;
  ok ← run_command build_cmd "Package building" true;
  if negb ok then
    print_warning "python -m build failed, trying setup.py";;
    ok ← run_command setup_py_cmd "Package building with setup.py" true;
    if negb ok then mret false
    else print_success "Package built successfully";; mret true
  else
    print_success "Package built successfully";; mret true.

Definition flake8_version : list string := ["flake8"; "--version"].
Definition black_version : list string := ["black"; "--version"].

(** One half of [run_lint]: probe the tool, run it if the probe passes,
    skip it with a warning if the probe raises. [success] is the flag so
    far. *)
Definition lint_flake8 (success : bool) : M bool :=
  try_except
    (subprocess_run flake8_version true;;
     ok ← run_command ["flake8"; "src/"; "tests/"] "Flake8 linting" false;
     mret (if negb ok then false else success))
    (fun e =>
       match e with
       | CalledProcessError _ _ _ | FileNotFoundError =>
           Some (print_warning "flake8 not found, skipping linting";;
                 mret success)
       | SystemExit _ => None
       end).

Definition lint_black (success : bool) : M bool :=
  try_except
    (subprocess_run black_version true;;
     ok ← run_command ["black"; "--check"; "src/"; "tests/"]
            "Black formatting check" false;
     if negb ok then
       print_warning
         "Code formatting issues found. Run 'black src/ tests/' to fix.";;
       mret false
     else mret success)
    (fun e =>
       match e with
       | CalledProcessError _ _ _ | FileNotFoundError =>
           Some (print_warning "black not found, skipping format checking";;
                 mret success)
       | SystemExit _ => None
       end).

Definition run_lint : M bool :=
  print_step "Running code quality checks";;
  success ← lint_flake8 true;
  success ← lint_black success;
  when success (print_success "All code quality checks passed");;
  mret success.

(** The [for step_name, step_func in steps] loop of [run_all]: [true] when
    the loop runs to its end, [false] when it returns early. *)
Fixpoint run_steps (steps : list (string * M bool)) : M bool :=
  match steps with
  | [] => mret true
  | (step_name, step_func) :: rest =>
      ok ← step_func;
      if negb ok then
        print_error ("Build pipeline failed at: " +:+ step_name);;
        mret false
      else run_steps rest
  end.

Definition steps : list (string * M bool) :=
  [ ("Installing dependencies", install_dependencies);
    ("Running tests", run_tests false);
    ("Running lint checks", run_lint);
    ("Building package", build_package) ].

Definition run_all : M bool :=
  print_step "Running complete build pipeline";;
  finished ← run_steps steps;
  if negb finished then mret false
  else
    print_success "🎉 Complete build pipeline completed successfully!";;
    mret true.

(** [print(__doc__)]: the usage text, of which the title line is kept. *)
Definition show_help : M unit := print (Plain "OpenCodeSpace Build Script").

Inductive Command :=
| Install | Test | Clean | Build | Lint | All | Help.

(** The parsed command line: [command] defaults to [Help]. *)
Record Args := { command : Command; quick : bool }.

(** The [if]/[elif] chain of [main]; the final [else] cannot be reached,
    the parser admits the seven commands only. *)
Definition run_subcommand (args : Args) : M bool :=
  match command args with
  | Install => install_dependencies
  | Test => run_tests (quick args)
  | Clean => clean_build
  | Build => build_package
  | Lint => run_lint
  | All => run_all
  | Help => show_help;; mret true
  end.

Definition is_help (c : Command) : bool :=
  match c with Help => true | _ => false end.

Definition main (args : Args) : M unit :=
  print (Plain "🚀 OpenCodeSpace Build Script");;
  print (Plain "================================");;
  success ← run_subcommand args;
  if negb success && negb (is_help (command args)) then sys_exit 1
  else mret tt.

End DevBuild.

(** ** run_tests.py: the test runner *)

Module RunTests.
Import Sys.

(** The parsed command line, with the defaults of the parser. *)
Record Args := {
  setup : bool;
  quick : bool;
  integration : bool;
  coverage : bool;
  coverage_fail : Z;
  check : bool;
  lint : bool;
  parallel : option string;
  verbose : bool;
  markers : option string;
  tests : option (list string);
  pytest_args : option (list string);
}.

Definition default_args : Args :=
  {| setup := false; quick := false; integration := false;
     coverage := false; coverage_fail := 85; check := false; lint := false;
     parallel := None; verbose := false; markers := None; tests := None;
     pytest_args := None |}.

(** Truth value of an optional string and of an optional list. *)
Definition given_str (o : option string) : bool :=
  match o with Some s => Str.nonempty s | None => false end.

Definition given_list (o : option (list string)) : bool :=
  match o with Some (_ :: _) => true | _ => false end.

(** [self.test_dir], in the tree and as the string passed to pytest;
    [project_root] is the directory of the script. *)
Definition test_dir : FS.path := ["tests"].

Definition path_str (project_root : string) (p : FS.path) : string :=
  if String.eqb project_root "." then Str.join "/" p
  else Str.join "/" (project_root :: p).

Record TestRunner := { project_root : string }.

Definition test_dir_str (self : TestRunner) : string :=
  path_str (project_root self) test_dir.

Definition run_command (self : TestRunner) (cmd : list string)
    (description : string) : M CompletedProcess :=
  when (Str.nonempty description) (print (Plain ("🔧 " +:+ description)));;
  print (Plain ("Running: " +:+ Str.join " " cmd));;
  result ← subprocess_run cmd false;
  if negb (returncode result =? 0) then
    print (Plain ("❌ Command failed with exit code "
                    +:+ Str.of_Z (returncode result)));;
    sys_exit (returncode result)
  else mret result.

Definition sys_executable : M string := fun w => (Ok (executable w), w, []).

Definition install_dependencies (self : TestRunner) : M unit :=
  exe ← sys_executable;
  run_command self
    [exe; "-m"; "pip"; "install"; "-r"; "tests/test_requirements.txt"]
    "Installing test dependencies";;
  mret tt.

Definition install_package (self : TestRunner) : M unit :=
  exe ← sys_executable;
  run_command self [exe; "-m"; "pip"; "install"; "-e"; "."]
    "Installing package in development mode";;
  mret tt.

Definition coverage_flags : list string :=
  [ "--cov=src/opencodespace"; "--cov-report=term-missing";
    "--cov-report=html:htmlcov"; "--cov-report=xml" ].

(** The command [run_tests] builds. *)
Definition run_tests_cmd (self : TestRunner) (exe : string) (args : Args)
    : list string :=
  [exe; "-m"; "pytest"]
  ++ [test_dir_str self]
  ++ (if coverage args then
        coverage_flags
        ++ (if negb (coverage_fail args =? 0)
            then ["--cov-fail-under=" +:+ Str.of_Z (coverage_fail args)]
            else [])
      else [])
  ++ (if given_str (parallel args) then
        ["-n"; match parallel args with
               | Some p => if String.eqb p "auto" then "auto" else p
               | None => EmptyString
               end]
      else [])
  ++ (if verbose args then ["-v"] else [])
  ++ (if given_str (markers args) then ["-m"; default EmptyString (markers args)]
      else [])
  ++ (if given_list (tests args) then default [] (tests args) else [])
  ++ (if given_list (pytest_args args) then default [] (pytest_args args)
      else []).

Definition run_tests_description (args : Args) : string :=
  "Running tests"
  +:+ (if given_str (markers args)
       then " (markers: " +:+ default EmptyString (markers args) +:+ ")"
       else EmptyString)
  +:+ (if given_list (tests args)
       then " (specific: " +:+ Str.join ", " (default [] (tests args)) +:+ ")"
       else EmptyString).

Definition run_tests (self : TestRunner) (args : Args) : M unit :=
  exe ← sys_executable;
  run_command self (run_tests_cmd self exe args) (run_tests_description args);;
  mret tt.

Definition quick_marker : string := "unit or (not integration and not slow)".

Definition quick_cmd (self : TestRunner) (exe : string) : list string :=
  [exe; "-m"; "pytest"; test_dir_str self; "-m"; quick_marker; "-v"].

Definition run_quick_tests (self : TestRunner) : M unit :=
  exe ← sys_executable;
  run_command self (quick_cmd self exe) "Running quick unit tests";;
  mret tt.

Definition integration_cmd (self : TestRunner) (exe : string) : list string :=
  [exe; "-m"; "pytest"; test_dir_str self; "-m"; "integration"; "-v"].

Definition run_integration_tests (self : TestRunner) : M unit :=
  exe ← sys_executable;
  run_command self (integration_cmd self exe) "Running integration tests";;
  mret tt.

Definition coverage_report_cmd (self : TestRunner) (exe : string)
    : list string :=
  [exe; "-m"; "pytest"; test_dir_str self;
   "--cov=src/opencodespace"; "--cov-report=term-missing";
   "--cov-report=html:htmlcov"; "--cov-report=xml"; "--cov-fail-under=85"].

Definition run_coverage_report (self : TestRunner) : M unit :=
  exe ← sys_executable;
  run_command self (coverage_report_cmd self exe) "Generating coverage report";;
  print (Plain "📊 Coverage report generated:");;
  print (Plain "  - Terminal: displayed above");;
  print (Plain "  - HTML: htmlcov/index.html");;
  print (Plain "  - XML: coverage.xml").

Definition lint_tests (self : TestRunner) : M unit :=
  try_except
    (exe ← sys_executable;
     run_command self [exe; "-m"; "flake8"; test_dir_str self]
       "Linting test files";;
     mret tt)
    (fun e =>
       match e with
       | FileNotFoundError =>
           Some (print (Plain "ℹ️  flake8 not found, skipping linting"))
       | _ => None
       end).

Definition glob_test_files : M (list FS.path) :=
  fun w => (Ok (FS.glob test_dir "test_*.py" (fs w)), w, []).

Fixpoint print_all (ls : list string) : M unit :=
  match ls with
  | [] => mret tt
  | l :: ls' => print (Plain l);; print_all ls'
  end.

Definition check_test_structure (self : TestRunner) : M unit :=
  print (Plain "🔍 Checking test structure...");;
  test_files ← glob_test_files;
  match test_files with
  | [] => print (Plain "❌ No test files found!");; sys_exit 1
  | _ :: _ =>
      print (Plain ("✅ Found " +:+ Str.of_nat (length test_files)
                      +:+ " test files:"));;
      print_all (List.map (fun n => "  - " +:+ n)
                   (Str.sorted (List.map FS.name test_files)));;
      conftest ← path_exists (test_dir ++ ["conftest.py"]);
      (if negb conftest then print (Plain "⚠️  conftest.py not found")
       else print (Plain "✅ conftest.py found"));;
      test_req ← path_exists (test_dir ++ ["test_requirements.txt"]);
      (if negb test_req then print (Plain "⚠️  test_requirements.txt not found")
       else print (Plain "✅ test_requirements.txt found"))
  end.

Definition import_pytest : M bool := fun w => (Ok (pytest_importable w), w, []).

Definition requirements_missing : line :=
  Plain "❌ Test requirements file not found!".

Definition main (self : TestRunner) (args : Args) : M unit :=
  print (Plain "🧪 OpenCodeSpace Test Runner");;
  print (Plain "==================================================");;
  if setup args then
    install_dependencies self;;
    install_package self;;
    print (Plain "✅ Setup complete!")
  else if check args then check_test_structure self
  else if lint args then lint_tests self
  else
    found ← path_exists (test_dir ++ ["test_requirements.txt"]);
    if negb found then
      print requirements_missing;;
      print (Plain "Run with --setup to install dependencies");;
      sys_exit 1
    else
      importable ← import_pytest;
      (if negb importable then
         print (Plain "❌ pytest not found! Installing dependencies...");;
         install_dependencies self
       else mret tt);;
      (if quick args then run_quick_tests self
       else if integration args then run_integration_tests self
       else if coverage args then run_coverage_report self
       else run_tests self args);;
      print (Plain "✅ Tests completed successfully!").

End RunTests.

(** ** tests/conftest.py: the environment-cleaning fixture *)

Module Conftest.

(** [os.environ]. *)
Abbreviation environ := (gmap string string).

Definition env_vars_to_clean : list string :=
  [ "PASSWORD"; "GIT_REPO_URL"; "SSH_PRIVATE_KEY"; "GIT_USER_NAME";
    "GIT_USER_EMAIL"; "VSCODE_EXTENSIONS"; "CURSOR_EXTENSIONS";
    "VSCODE_SETTINGS"; "CURSOR_SETTINGS"; "SKIP_GIT_SETUP" ].

(** [os.environ.pop(var, None)]. *)
Definition pop (var : string) (env : environ) : environ := delete var env.

(** [os.environ.update(other)]: every binding of [other] is written. *)
Definition update (other env : environ) : environ := other ∪ env.

(** [os.environ.clear()]. *)
Definition clear (env : environ) : environ := ∅.

(** The fixture up to its [yield]: the snapshot [original_env] (a copy, so
    later changes of the environment do not reach it) and the environment
    the test starts in. *)
Definition clean_environment_setup (env : environ) : environ * environ :=
  let original_env := env in
  (original_env, List.fold_left (fun e var => pop var e) env_vars_to_clean env).

(** The fixture after its [yield]. *)
Definition clean_environment_teardown (original_env env : environ) : environ :=
  update original_env (clear env).

(** A test under the fixture; [test] is everything that runs between the
    two halves, as a change of the environment. *)
Definition clean_environment (test : environ → environ) (env : environ)
    : environ :=
  let '(original_env, env1) := clean_environment_setup env in
  clean_environment_teardown original_env (test env1).

End Conftest.

(** ** tests/conftest.py: further fixtures *)

Module Fixtures.
Import Sys.

(** The four commands of [git_project_dir], in the order of the source. *)
Definition git_init : list string := ["git"; "init"].

Definition git_user_name : list string :=
  ["git"; "config"; "user.name"; "Test User"].

Definition git_user_email : list string :=
  ["git"; "config"; "user.email"; "test@example.com"].

Definition git_remote_add : list string :=
  ["git"; "remote"; "add"; "origin"; "git@github.com:test/repo.git"].

(** [git_project_dir] up to its [yield]. [temp_dir] is the directory
    [tempfile.TemporaryDirectory()] made: it lies outside the project tree,
    and the commands run in it. Every command runs with [check=True] and no
    exception is caught. *)
Definition git_project_dir (temp_dir : string) : M string :=
  subprocess_run git_init true;;
  subprocess_run git_user_name true;;
  subprocess_run git_user_email true;;
  subprocess_run git_remote_add true;;
  mret temp_dir.

(** The [Mock(returncode=..., stdout=..., stderr=...)] of the editor mock. *)
Record MockResult := {
  mock_returncode : Z;
  mock_stdout : string;
  mock_stderr : string;
}.

Definition newline : string := String (ascii_of_nat 10) EmptyString.

(** [s in cmd], for a command given as a list. *)
Definition mentions (s : string) (cmd : list string) : bool :=
  bool_decide (s ∈ cmd).

(** [mock_run_side_effect] of [mock_vscode_detection]. *)
Definition mock_run_side_effect (cmd : list string) : MockResult :=
  if mentions "code" cmd && mentions "--version" cmd then
    {| mock_returncode := 0; mock_stdout := "1.74.0" +:+ newline;
       mock_stderr := EmptyString |}
  else if mentions "cursor" cmd && mentions "--version" cmd then
    {| mock_returncode := 0; mock_stdout := "0.19.0" +:+ newline;
       mock_stderr := EmptyString |}
  else if mentions "code" cmd && mentions "--list-extensions" cmd then
    {| mock_returncode := 0;
       mock_stdout := "ms-python.python" +:+ newline
                      +:+ "ms-vscode.vscode-json" +:+ newline;
       mock_stderr := EmptyString |}
  else if mentions "cursor" cmd && mentions "--list-extensions" cmd then
    {| mock_returncode := 0;
       mock_stdout := "cursor.ai" +:+ newline
                      +:+ "ms-python.python" +:+ newline;
       mock_stderr := EmptyString |}
  else
    {| mock_returncode := 1; mock_stdout := EmptyString;
       mock_stderr := "command not found" |}.

End Fixtures.

(** * Properties

    The vocabulary of the statements comes first: how traces are read, the
    worlds and command lines the scripts are tried on. *)

Import Sys DevBuild.

(** Some entry of the tree has path [p]. *)
Definition key_in (p : FS.path) (f : FS.t) : Prop := ∃ k, In (p, k) f.

(** The entries a pattern selects, whichever of the two loops handles it. *)
Definition selects (pattern : string) : FS.entry → bool :=
  if Str.contains "**/" pattern
  then FS.rglob_selects [] (Str.replace "**/" EmptyString pattern)
  else FS.glob_selects [] pattern.

(** The process ran and exited with code zero. *)
Definition exit_zero (r : proc_result) : Prop :=
  match r with Exited c _ => c = 0 | NotFound => False end.

(** Every process spawned in the trace exited with code zero. *)
Definition all_exit_zero (tr : list event) : Prop :=
  ∀ cmd r, In (Spawn cmd r) tr → exit_zero r.

(** The same, decided event by event. *)
Definition zero_event (ev : event) : bool :=
  match ev with
  | Spawn _ (Exited c _) => c =? 0
  | Spawn _ NotFound => false
  | Print _ => true
  end.

(** Invocations whose failure the script absorbs: the first build attempt
    (it has a fallback) and the two availability probes of [run_lint]. *)
Definition tolerated : list (list string) :=
  [build_cmd; flake8_version; black_version].

(** How a step tells that [cmd] was not found. *)
Definition report_of (cmd : list string) : line :=
  if bool_decide (cmd = uv_version)
  then Error "uv is not installed. Please install uv first:"
  else if bool_decide (cmd = flake8_version)
  then Warning "flake8 not found, skipping linting"
  else if bool_decide (cmd = black_version)
  then Warning "black not found, skipping format checking"
  else Error ("Command not found: " +:+ cmd0 cmd).

(** What every step of the build script guarantees about one of its runs
    [x]: it returns a boolean; all exits zero give [True]; a failed spawn that
    is not tolerated gives [False]; a missing tool is reported. *)
Record sound (x : res bool * World * list event) : Prop := {
  sound_returns : ∃ b, result x = Ok b;
  sound_zero : all_exit_zero (trace x) → result x = Ok true;
  sound_fail : ∀ cmd r,
    In (Spawn cmd r) (trace x) → ¬ exit_zero r → ¬ In cmd tolerated →
    result x = Ok false;
  sound_reported : ∀ cmd,
    In (Spawn cmd NotFound) (trace x) → In (Print (report_of cmd)) (trace x);
}.

(** The availability probes of [run_lint]. *)
Definition lint_probes : list (list string) := [flake8_version; black_version].

(** Whether a command is found is decided by its executable and the tree, as
    a search path does: at one tree, two command lines with the same
    executable are found or not together. *)
Definition found_by_executable (w : World) : Prop :=
  ∀ cmd cmd' f,
    cmd0 cmd = cmd0 cmd' →
    fst (exec w cmd f) = NotFound → fst (exec w cmd' f) = NotFound.

(** A run [x] in which a tool that is not found means failure, unless the
    command is a probe of [run_lint]. *)
Definition fails_when_missing (x : res bool * World * list event) : Prop :=
  ∀ cmd, In (Spawn cmd NotFound) (trace x) → ¬ In cmd lint_probes →
         result x = Ok false.

(** The line [run_all] prints when a step fails. *)
Definition failed_at (step_name : string) : event :=
  Print (Error ("Build pipeline failed at: " +:+ step_name)).

(** [Ok true], as a boolean. *)
Definition succeeded (x : res bool * World * list event) : bool :=
  match result x with Ok true => true | _ => false end.

(** The process ran and exited with a non-zero code. *)
Definition exit_nonzero (r : proc_result) : Prop :=
  match r with Exited c _ => c ≠ 0 | NotFound => False end.

(** Worlds to run the scripts in. Every tool is installed and exits with zero. *)
Definition all_succeed (f : FS.t) : World :=
  {| fs := f; exec := λ _ f, (Exited 0 EmptyString, f);
     pytest_importable := true; executable := "python3" |}.

(** No tool is on the search path. *)
Definition nothing_installed (f : FS.t) : World :=
  {| fs := f; exec := λ _ f, (NotFound, f);
     pytest_importable := true; executable := "python3" |}.

(** Every tool exits with zero, but [python -m build] exits with 1. *)
Definition build_module_missing (f : FS.t) : World :=
  {| fs := f;
     exec := λ cmd f, if bool_decide (cmd = build_cmd)
                      then (Exited 1 "No module named build", f)
                      else (Exited 0 EmptyString, f);
     pytest_importable := true; executable := "python3" |}.

(** What the runner's [run_command] prints before it spawns [cmd]. *)
Definition announce (description : string) (cmd : list string) : list event :=
  (if Str.nonempty description
   then [Print (Plain ("🔧 " +:+ description))] else [])
  ++ [Print (Plain ("Running: " +:+ Str.join " " cmd))].

(** [runner.test_dir / "test_requirements.txt"]. *)
Definition requirements : FS.path :=
  RunTests.test_dir ++ ["test_requirements.txt"].

(** The mode [main] selects among the four that run tests. *)
Definition selected_cmd (self : RunTests.TestRunner) (args : RunTests.Args)
    (exe : string) : list string :=
  if RunTests.quick args then RunTests.quick_cmd self exe
  else if RunTests.integration args then RunTests.integration_cmd self exe
  else if RunTests.coverage args then RunTests.coverage_report_cmd self exe
  else RunTests.run_tests_cmd self exe args.

(** Command lines to try the runner on. *)
Definition quick_and_coverage : RunTests.Args :=
  {| RunTests.setup := false; RunTests.quick := true;
     RunTests.integration := false; RunTests.coverage := true;
     RunTests.coverage_fail := 85; RunTests.check := false;
     RunTests.lint := false; RunTests.parallel := None;
     RunTests.verbose := false; RunTests.markers := None;
     RunTests.tests := None; RunTests.pytest_args := None |}.

Definition setup_and_quick : RunTests.Args :=
  {| RunTests.setup := true; RunTests.quick := true;
     RunTests.integration := false; RunTests.coverage := false;
     RunTests.coverage_fail := 85; RunTests.check := false;
     RunTests.lint := false; RunTests.parallel := None;
     RunTests.verbose := false; RunTests.markers := None;
     RunTests.tests := None; RunTests.pytest_args := None |}.

Definition coverage_fail_90 : RunTests.Args :=
  {| RunTests.setup := false; RunTests.quick := false;
     RunTests.integration := false; RunTests.coverage := true;
     RunTests.coverage_fail := 90; RunTests.check := false;
     RunTests.lint := false; RunTests.parallel := None;
     RunTests.verbose := false; RunTests.markers := None;
     RunTests.tests := None; RunTests.pytest_args := None |}.

(** The runner of a script started as [python run_tests.py]. *)
Definition runner : RunTests.TestRunner := {| RunTests.project_root := "." |}.

(** A project with its requirements file and one test file. *)
Definition project_tree : FS.t :=
  [ (["tests"], FS.Dir);
    (["tests"; "test_requirements.txt"], FS.File);
    (["tests"; "test_main.py"], FS.File) ].

(** A checkout with build leftovers at several depths. *)
Definition littered_tree : FS.t :=
  [ (["src"], FS.Dir);
    (["src"; "main.py"], FS.File);
    (["build"], FS.Dir);
    (["build"; "lib"], FS.Dir);
    (["src"; "__pycache__"], FS.Dir);
    (["src"; "__pycache__"; "main.cpython-311.pyc"], FS.File);
    (["src"; "old.pyc"], FS.File);
    (["opencodespace.egg-info"], FS.Dir);
    ([".coverage"], FS.File) ].

(** The command [install_dependencies] runs for the test requirements. *)
Definition test_req_install : list string :=
  ["uv"; "pip"; "install"; "-r"; "tests/test_requirements.txt"].

(** Vocabulary of the further properties. *)

(** One turn of the inner loops: the counter never goes down, every count
    is paid by an entry of the tree, and an unchanged counter means an
    unchanged tree. *)
Definition accounted (st st' : FS.t * nat) : Prop :=
  (snd st ≤ snd st')%nat
  ∧ (length (fst st') + snd st' ≤ length (fst st) + snd st)%nat
  ∧ (snd st' = snd st → fst st' = fst st).

(** The outcomes of the processes spawned in a trace, in order. *)
Definition outcomes (tr : list event) : list proc_result :=
  omap (λ ev, match ev with Spawn _ r => Some r | Print _ => None end) tr.

Definition requirements_install : list string :=
  ["uv"; "pip"; "install"; "-r"; "requirements.txt"].

Definition editable_install : list string := ["uv"; "pip"; "install"; "-e"; "."].

Definition full_tests_cmd : list string := ["python"; "run_tests.py"].

Definition quick_tests_cmd : list string := ["python"; "run_tests.py"; "--quick"].

Definition flake8_check : list string := ["flake8"; "src/"; "tests/"].

Definition black_check : list string := ["black"; "--check"; "src/"; "tests/"].

(** Every command line the build script contains, but the quick test run. *)
Definition pipeline_commands : list (list string) :=
  [ uv_version; requirements_install; test_req_install; editable_install;
    full_tests_cmd; flake8_version; flake8_check; black_version; black_check;
    build_cmd; setup_py_cmd ].

(** An event that spawns, if anything, one of [cmds]. *)
Definition spawns_within (cmds : list (list string)) (ev : event) : Prop :=
  match ev with Spawn cmd _ => In cmd cmds | Print _ => True end.

(** The runner was asked to lint and to do nothing that comes before. *)
Definition lint_mode (args : RunTests.Args) : bool :=
  negb (RunTests.setup args) && negb (RunTests.check args) && RunTests.lint args.

(** How [main] ends when the process it spawned last failed as [r]. *)
Definition ends_as (args : RunTests.Args) (r : proc_result) : res unit :=
  match r with
  | Exited c _ => Raise (SystemExit c)
  | NotFound => if lint_mode args then Ok tt else Raise FileNotFoundError
  end.

(** The command line [args] with [--coverage-fail n]. *)
Definition set_coverage_fail (n : Z) (args : RunTests.Args) : RunTests.Args :=
  {| RunTests.setup := RunTests.setup args;
     RunTests.quick := RunTests.quick args;
     RunTests.integration := RunTests.integration args;
     RunTests.coverage := RunTests.coverage args;
     RunTests.coverage_fail := n;
     RunTests.check := RunTests.check args;
     RunTests.lint := RunTests.lint args;
     RunTests.parallel := RunTests.parallel args;
     RunTests.verbose := RunTests.verbose args;
     RunTests.markers := RunTests.markers args;
     RunTests.tests := RunTests.tests args;
     RunTests.pytest_args := RunTests.pytest_args args |}.

(** The modes of the runner, in the order [main] tries them. *)
Inductive mode :=
| Setup | Check | Lint | Quick | Integration | Coverage | Default.

Definition mode_of (args : RunTests.Args) : mode :=
  if RunTests.setup args then Setup
  else if RunTests.check args then Check
  else if RunTests.lint args then Lint
  else if RunTests.quick args then Quick
  else if RunTests.integration args then Integration
  else if RunTests.coverage args then Coverage
  else Default.

(** The last line of a successful test run. *)
Definition success_line : event :=
  Print (Plain "✅ Tests completed successfully!").

(** What [--check] prints when the requirements file is missing. *)
Definition requirements_warning : event :=
  Print (Plain "⚠️  test_requirements.txt not found").

(** [--check] alone. *)
Definition check_only : RunTests.Args :=
  {| RunTests.setup := false; RunTests.quick := false;
     RunTests.integration := false; RunTests.coverage := false;
     RunTests.coverage_fail := 85; RunTests.check := true;
     RunTests.lint := false; RunTests.parallel := None;
     RunTests.verbose := false; RunTests.markers := None;
     RunTests.tests := None; RunTests.pytest_args := None |}.


(** A project with a test file and no requirements file. *)
Definition tests_without_requirements : FS.t :=
  [ (["tests"], FS.Dir); (["tests"; "test_main.py"], FS.File) ].

Definition test_files (w : World) : list FS.path :=
  FS.glob RunTests.test_dir "test_*.py" (fs w).

Definition pip_requirements (w : World) : list string :=
  [executable w; "-m"; "pip"; "install"; "-r"; "tests/test_requirements.txt"].


(** Git is installed, the remote exists already: [git remote add] exits
    with 3. *)
Definition remote_exists (f : FS.t) : World :=
  {| fs := f;
     exec := λ cmd f, if bool_decide (cmd = Fixtures.git_remote_add)
                      then (Exited 3 "error: remote origin already exists.", f)
                      else (Exited 0 EmptyString, f);
     pytest_importable := true; executable := "python3" |}.

(** Pytest is missing, every tool exits with zero. *)
Definition pytest_missing (f : FS.t) : World :=
  {| fs := f; exec := λ _ f, (Exited 0 EmptyString, f);
     pytest_importable := false; executable := "python3" |}.

(** The last line of a successful pipeline. *)
Definition pipeline_success : event :=
  Print (Success "🎉 Complete build pipeline completed successfully!").

(** ** Cleaning the tree *)

Lemma paths_of_selects pattern f :
  paths_of pattern f = List.map fst (List.filter (selects pattern) f).
Proof. unfold paths_of, selects, FS.rglob, FS.glob. by case_match. Qed.

Lemma find_None_key p f : FS.find p f = None → ¬ key_in p f.
Proof.
  induction f as [|[q k] f IH]; intros Hf [k' Hin]; simpl in *; [done|].
  unfold FS.path_eqb in Hf. case_bool_decide as Hpq; [done|].
  destruct Hin as [Heq|Hin]; [by inversion Heq|].
  apply IH; [done|by exists k'].
Qed.

Lemma rmtree_gone p f : ¬ key_in p (FS.rmtree p f).
Proof.
  intros [k Hin]. apply filter_In in Hin as [_ Hneg]. simpl in Hneg.
  assert (FS.is_prefix p p = true) as Hpp.
  { clear. induction p as [|a p IH]; simpl; [done|].
    rewrite bool_decide_eq_true_2; done. }
  by rewrite Hpp in Hneg.
Qed.

Lemma unlink_gone p f : ¬ key_in p (FS.unlink p f).
Proof.
  intros [k Hin]. apply filter_In in Hin as [_ Hneg]. simpl in Hneg.
  unfold FS.path_eqb in Hneg. by rewrite bool_decide_eq_true_2 in Hneg.
Qed.

Lemma remove_path_incl st p : incl (fst (remove_path st p)) (fst st).
Proof.
  destruct st as [f n]. unfold remove_path.
  destruct (FS.exists_ p f); [|apply incl_refl]. simpl.
  destruct (FS.is_dir p f); intros e He; by apply filter_In in He as [? _].
Qed.

Lemma remove_path_gone st p : ¬ key_in p (fst (remove_path st p)).
Proof.
  destruct st as [f n]. unfold remove_path, FS.exists_.
  destruct (FS.find p f) as [k|] eqn:Hf; simpl.
  - destruct (FS.is_dir p f); [apply rmtree_gone|apply unlink_gone].
  - by apply find_None_key.
Qed.

Lemma key_in_incl p f f' : incl f' f → key_in p f' → key_in p f.
Proof. intros Hi [k Hk]. exists k. by apply Hi. Qed.

Lemma fold_remove_incl ps st :
  incl (fst (fold_left remove_path ps st)) (fst st).
Proof.
  revert st. induction ps as [|p ps IH]; intros st; simpl; [apply incl_refl|].
  eapply incl_tran; [apply IH|apply remove_path_incl].
Qed.

Lemma fold_remove_gone ps st p :
  In p ps → ¬ key_in p (fst (fold_left remove_path ps st)).
Proof.
  revert st. induction ps as [|q ps IH]; intros st Hin; simpl in *; [done|].
  destruct Hin as [->|Hin]; [|by apply IH].
  intros Hk. apply (remove_path_gone st p).
  eapply key_in_incl; [apply fold_remove_incl|done].
Qed.

Lemma clean_pattern_incl st pattern :
  incl (fst (clean_pattern st pattern)) (fst st).
Proof. apply fold_remove_incl. Qed.

(** After the turn of a pattern, nothing it selects is left. *)
Lemma clean_pattern_none_left st pattern e :
  In e (fst (clean_pattern st pattern)) → selects pattern e = false.
Proof.
  intros He. destruct (selects pattern e) eqn:Hsel; [exfalso|done].
  destruct e as [q k].
  apply (fold_remove_gone (paths_of pattern (fst st)) st q).
  - rewrite paths_of_selects. apply (in_map fst _ (q, k)).
    apply filter_In. split; [|done]. by apply (clean_pattern_incl st pattern).
  - by exists k.
Qed.

Lemma fold_clean_incl patterns st :
  incl (fst (fold_left clean_pattern patterns st)) (fst st).
Proof.
  revert st. induction patterns as [|a l IH]; intros st; simpl; [apply incl_refl|].
  eapply incl_tran; [apply IH|apply clean_pattern_incl].
Qed.

Lemma fold_clean_none_left patterns st pattern e :
  In pattern patterns →
  In e (fst (fold_left clean_pattern patterns st)) →
  selects pattern e = false.
Proof.
  revert st. induction patterns as [|a l IH]; intros st Hp He; simpl in *; [done|].
  destruct Hp as [->|Hp]; [|by eapply IH].
  apply (clean_pattern_none_left st). by apply (fold_clean_incl l).
Qed.

Lemma filter_none {A} (g : A → bool) (l : list A) :
  (∀ x, In x l → g x = false) → List.filter g l = [].
Proof.
  induction l as [|x l IH]; intros H; simpl; [done|].
  rewrite (H x); [|by left]. apply IH. intros y Hy. apply H. by right.
Qed.

(** A pattern that selects nothing leaves tree and counter as they are. *)
Lemma clean_pattern_noop f n pattern :
  (∀ e, In e f → selects pattern e = false) →
  clean_pattern (f, n) pattern = (f, n).
Proof.
  intros H. unfold clean_pattern. simpl.
  by rewrite paths_of_selects, filter_none.
Qed.

Lemma fold_clean_noop patterns f n :
  (∀ pattern e, In pattern patterns → In e f → selects pattern e = false) →
  fold_left clean_pattern patterns (f, n) = (f, n).
Proof.
  induction patterns as [|a l IH]; intros H; simpl; [done|].
  rewrite clean_pattern_noop; [|intros e He; apply H; [by left|done]].
  apply IH. intros p e Hp He. apply H; [by right|done].
Qed.

Lemma clean_patterns_twice f :
  clean_patterns (fst (clean_patterns f)) = (fst (clean_patterns f), O).
Proof.
  unfold clean_patterns at 1. apply fold_clean_noop.
  intros pattern e Hp He. by eapply fold_clean_none_left.
Qed.

(** The model at work: five leftovers go in one run (the compiled file
    inside [__pycache__] goes with its directory, uncounted), sources stay. *)
Example clean_patterns_littered :
  clean_patterns littered_tree
  = ([(["src"], FS.Dir); (["src"; "main.py"], FS.File)], 5%nat).
Proof. vm_compute. reflexivity. Qed.

Example fnmatch_examples :
  Str.fnmatch "*.pyc" "old.pyc" = true
  ∧ Str.fnmatch "*.pyc" "old.pyo" = false
  ∧ Str.fnmatch "test_*.py" "test_main.py" = true
  ∧ Str.fnmatch "test_*.py" "conftest.py" = false.
Proof. repeat split; reflexivity. Qed.

(** C8. Cleaning twice in a row: the second [clean_build] finds nothing to
  remove. Its counter is 0, it leaves the tree of the first run as it is,
  and the line it prints reports 0 files/directories. *)
Theorem clean_build_idempotent (w : Sys.World) :
let first := DevBuild.clean_build w in
let second := DevBuild.clean_build (Sys.world first) in
snd (DevBuild.clean_patterns (Sys.fs (Sys.world first))) = O
∧ Sys.fs (Sys.world second) = Sys.fs (Sys.world first)
∧ Sys.result second = Sys.Ok true
∧ Sys.trace second =
    [ Sys.Print (Sys.Step "Cleaning build artifacts");
      Sys.Print (Sys.Success "Cleaned 0 files/directories") ].
Proof.
cbv zeta.
assert (Sys.fs (Sys.world (DevBuild.clean_build w))
        = fst (DevBuild.clean_patterns (Sys.fs w))) as Hfs by reflexivity.
rewrite Hfs.
pose proof (clean_patterns_twice (Sys.fs w)) as Htwice.
split; [by rewrite Htwice|].
unfold DevBuild.clean_build at 1 3 5.
unfold Sys.world, Sys.result, Sys.trace, mbind, M_bind, Sys.bind, mret, M_ret,
  Sys.ret, DevBuild.print_step, DevBuild.print_success, Sys.print, Sys.on_tree.
cbn [fst snd Sys.fs Sys.with_fs].
change (Sys.fs (DevBuild.clean_build w).1.2)
  with (fst (DevBuild.clean_patterns (Sys.fs w))).
rewrite Htwice. cbn [fst snd app]. done.
Qed.

(** ** The environment fixture *)

Lemma fold_pop_lookup (vars : list string) (env : gmap string string)
    (v : string) :
  fold_left (λ e var, Conftest.pop var e) vars env !! v
  = if decide (v ∈ vars) then None else env !! v.
Proof.
  revert env. induction vars as [|a vars IH]; intros env; simpl.
  - destruct (decide (v ∈ [])) as [Hin|Hin]; [inversion Hin|done].
  - rewrite IH. unfold Conftest.pop.
    destruct (decide (v ∈ vars)) as [Hin|Hin];
      destruct (decide (v ∈ a :: vars)) as [Hin'|Hin']; try done.
    + exfalso. apply Hin'. by right.
    + apply list_elem_of_In in Hin'. destruct Hin' as [->|Hin'].
      * apply lookup_delete_eq.
      * exfalso. apply Hin. by apply list_elem_of_In.
    + apply lookup_delete_ne. intros ->. apply Hin'. by left.
Qed.

(** C9. Under the [clean_environment] fixture every variable of the cleanup
  list is unset when the test starts, whatever the environment was, and
  once the fixture has finished the environment is the one captured before
  it ran, whatever the test did to it. *)
Theorem clean_environment_isolates
  (env : gmap string string) (test : gmap string string → gmap string string) :
Forall (λ var, snd (Conftest.clean_environment_setup env) !! var = None)
  Conftest.env_vars_to_clean
∧ fst (Conftest.clean_environment_setup env) = env
∧ Conftest.clean_environment test env = env.
Proof.
split; [|split; [done|]].
- apply Forall_forall. intros var Hvar.
  unfold Conftest.clean_environment_setup. cbn [snd].
  rewrite fold_pop_lookup. by rewrite decide_True.
- unfold Conftest.clean_environment, Conftest.clean_environment_setup,
    Conftest.clean_environment_teardown, Conftest.update, Conftest.clear.
  apply (right_id_L ∅ (∪)).
Qed.

(** ** The build script *)

Lemma all_exit_zero_forallb tr :
  all_exit_zero tr → forallb zero_event tr = true.
Proof.
  intros H. apply forallb_forall. intros [cmd [|c err]|l] Hin; simpl.
  - destruct (H _ _ Hin).
  - apply Z.eqb_eq. apply (H _ _ Hin).
  - reflexivity.
Qed.

Lemma run_command_eq cmd description check w :
  run_command cmd description check w =
  match exec w cmd (fs w) with
  | (NotFound, _) =>
      (Ok false, w,
       [Print (Plain ("Running: " +:+ Str.join " " cmd));
        Spawn cmd NotFound;
        Print (Error ("Command not found: " +:+ cmd0 cmd))])
  | (Exited c err, f') =>
      if c =? 0 then
        (Ok true, with_fs f' w,
         [Print (Plain ("Running: " +:+ Str.join " " cmd));
          Spawn cmd (Exited c err);
          Print (Success (description +:+ " completed successfully"))])
      else
        (Ok false, with_fs f' w,
         [Print (Plain ("Running: " +:+ Str.join " " cmd));
          Spawn cmd (Exited c err)]
         ++ [Print (Error (if check
                           then description +:+ " failed: "
                                +:+ str_exn (CalledProcessError cmd c err)
                           else description +:+ " failed with exit code "
                                +:+ Str.of_Z c))]
         ++ (if Str.nonempty err
             then [Print (Plain ("Error output: " +:+ err))] else []))
  end.
Proof.
  unfold run_command, mbind, M_bind, bind, try_except, subprocess_run, print,
    print_success, print_error, when, mret, M_ret, ret.
  cbn.
  destruct (exec w cmd (fs w)) as [[|c err] f']. 
  - reflexivity.
  - destruct (c =? 0) eqn:Hc; destruct check; cbn; rewrite ?Hc; cbn; try reflexivity.
    all: destruct (Str.nonempty err); reflexivity.
Qed.

(** Symbolic runs: the steps are unfolded down to the calls of [exec], and
    each call is split into its three outcomes. *)
#[local] Arguments run_command : simpl never.
#[local] Arguments clean_build : simpl never.
#[local] Arguments clean_patterns : simpl never.
#[local] Arguments Str.of_nat : simpl never.
#[local] Arguments Str.of_Z : simpl never.
#[local] Arguments Str.join : simpl never.
#[local] Arguments str_exn : simpl never.
#[local] Arguments String.append : simpl never.

Ltac unfold_monad :=
  unfold mbind, M_bind, bind, try_except, subprocess_run, print,
    print_step, print_success, print_error, print_warning, when, mret,
    M_ret, ret, path_exists, on_tree, result, world, trace in *.

Ltac exec_step :=
  first
    [ rewrite run_command_eq
    | match goal with
      | |- context [exec ?w ?c ?f] =>
          let rc := fresh "rc" in
          let err := fresh "err" in
          let f' := fresh "f" in
          destruct (exec w c f) as [[|rc err] f'];
          [|destruct (Z.eqb_spec rc 0) as [->|?]]
      | |- context [Z.eqb ?rc 0] =>
          destruct (Z.eqb_spec rc 0) as [->|?]
      | |- context [FS.exists_ ?p ?f] => destruct (FS.exists_ p f)
      | |- context [Str.nonempty ?e] => destruct (Str.nonempty e)
      end ];
  cbn.

(** A run that failed has a spawn that did not exit with zero. *)
Ltac refute_all_zero H :=
  apply all_exit_zero_forallb in H; cbn in H;
  repeat match goal with
         | n : _ ≠ 0 |- _ => apply Z.eqb_neq in n; rewrite ?n in H; cbn in H
         end;
  discriminate H.

(** A run that succeeded has only zero exits, but for tolerated commands. *)
Ltac refute_failure Hin Hnz Htol :=
  cbn in Hin;
  repeat (destruct Hin as [Hin|Hin];
          [ try discriminate Hin; injection Hin as <- <-;
            first [ exfalso; apply Hnz; reflexivity
                  | exfalso; apply Htol; cbn; tauto ] |]);
  destruct Hin.

Ltac find_line := repeat (first [left; reflexivity | right]).

Ltac show_report Hin :=
  cbn in Hin;
  repeat (destruct Hin as [Hin|Hin];
          [ try discriminate Hin; injection Hin as <-;
            match goal with
            | |- context [report_of ?c] =>
                let l := eval vm_compute in (report_of c) in
                change (report_of c) with l
            end;
            find_line |]);
  destruct Hin.

Ltac leaf :=
  split; cbn;
  [ eauto
  | try reflexivity; let H := fresh in intros H; refute_all_zero H
  | try reflexivity;
    let Hin := fresh in let Hnz := fresh in let Htol := fresh in
    intros ? ? Hin Hnz Htol; refute_failure Hin Hnz Htol
  | let Hin := fresh in intros ? Hin; show_report Hin ].

Lemma install_dependencies_sound w : sound (install_dependencies w).
Proof.
  unfold install_dependencies, check_uv_installed. unfold_monad. cbn.
  repeat exec_step.
  all: leaf.
Qed.

Lemma run_tests_sound quick w : sound (run_tests quick w).
Proof.
  unfold run_tests. unfold_monad. destruct quick; cbn.
  all: repeat exec_step.
  all: leaf.
Qed.

Lemma clean_build_eq w :
  clean_build w =
  (Ok true, with_fs (fst (clean_patterns (fs w))) w,
   [Print (Step "Cleaning build artifacts");
    Print (Success ("Cleaned " +:+ Str.of_nat (snd (clean_patterns (fs w)))
                      +:+ " files/directories"))]).
Proof. reflexivity. Qed.

Lemma clean_build_sound w : sound (clean_build w).
Proof. rewrite clean_build_eq. leaf. Qed.

Lemma build_package_sound w : sound (build_package w).
Proof.
  unfold build_package. unfold_monad. cbn. rewrite clean_build_eq. cbn.
  repeat exec_step.
  all: leaf.
Qed.

Lemma run_lint_sound w : sound (run_lint w).
Proof.
  unfold run_lint, lint_flake8, lint_black. unfold_monad. cbn.
  repeat exec_step.
  all: leaf.
Qed.

(** *** The pipeline *)

Lemma run_steps_cons step_name step_func rest w :
  run_steps ((step_name, step_func) :: rest) w =
  match step_func w with
  | (Ok true, w1, t1) =>
      (result (run_steps rest w1), world (run_steps rest w1),
       t1 ++ trace (run_steps rest w1))
  | (Ok false, w1, t1) => (Ok false, w1, t1 ++ [failed_at step_name])
  | (Raise e, w1, t1) => (Raise e, w1, t1)
  end.
Proof.
  cbn [run_steps]. unfold_monad. cbn.
  destruct (step_func w) as [[[[]|e] w1] t1]; cbn; [|done..].
  by destruct (run_steps rest w1) as [[r w2] t2].
Qed.

Lemma all_exit_zero_app t1 t2 :
  all_exit_zero (t1 ++ t2) ↔ all_exit_zero t1 ∧ all_exit_zero t2.
Proof.
  unfold all_exit_zero. split.
  - intros H. split; intros cmd r Hin; apply (H cmd r), in_or_app; tauto.
  - intros [H1 H2] cmd r Hin. apply in_app_or in Hin as [Hin|Hin]; eauto.
Qed.

Lemma run_steps_sound steps w :
  (∀ step, In step steps → ∀ w, sound (snd step w)) →
  sound (run_steps steps w).
Proof.
  revert w. induction steps as [|[step_name step_func] rest IH]; intros w Hall.
  { split; cbn; eauto; intros; contradiction. }
  rewrite run_steps_cons.
  pose proof (Hall (step_name, step_func) (or_introl eq_refl) w) as Hs.
  cbn [snd] in Hs.
  assert (sound (run_steps rest (world (step_func w)))) as Hr.
  { apply IH. intros step Hin. apply Hall. by right. }
  destruct Hs as [[b Hb] Hz Hf Hrep]. destruct Hr as [Hb' Hz' Hf' Hrep'].
  remember (step_func w) as x eqn:Hx. clear Hx. destruct x as [[r w1] t1].
  unfold result, world, trace in *. cbn [fst snd] in *. subst r.
  destruct b; split; cbn.
  - done.
  - intros H. apply all_exit_zero_app in H as [_ H]. by apply Hz'.
  - intros cmd r Hin Hnz Htol. apply in_app_or in Hin as [Hin|Hin].
    + by specialize (Hf _ _ Hin Hnz Htol).
    + by apply (Hf' cmd r).
  - intros cmd Hin. apply in_or_app. apply in_app_or in Hin as [Hin|Hin].
    + left. by apply Hrep.
    + right. by apply Hrep'.
  - eauto.
  - intros H. apply all_exit_zero_app in H as [H _]. by specialize (Hz H).
  - done.
  - intros cmd Hin. apply in_or_app. apply in_app_or in Hin as [Hin|Hin].
    + left. by apply Hrep.
    + destruct Hin as [Hin|[]]. discriminate Hin.
Qed.

Lemma steps_sound step : In step steps → ∀ w, sound (snd step w).
Proof.
  intros [<-|[<-|[<-|[<-|[]]]]] w; cbn [snd].
  - apply install_dependencies_sound.
  - apply run_tests_sound.
  - apply run_lint_sound.
  - apply build_package_sound.
Qed.

Lemma run_all_eq w :
  run_all w =
  match run_steps steps w with
  | (Ok true, w1, t1) =>
      (Ok true, w1,
       Print (Step "Running complete build pipeline") :: t1
       ++ [Print (Success "🎉 Complete build pipeline completed successfully!")])
  | (Ok false, w1, t1) =>
      (Ok false, w1, Print (Step "Running complete build pipeline") :: t1)
  | (Raise e, w1, t1) =>
      (Raise e, w1, Print (Step "Running complete build pipeline") :: t1)
  end.
Proof.
  unfold run_all. unfold_monad. cbn -[run_steps].
  destruct (run_steps steps w) as [[[[]|e] w1] t1]; cbn; rewrite ?app_nil_r; done.
Qed.

Lemma run_all_sound w : sound (run_all w).
Proof.
  rewrite run_all_eq.
  destruct (run_steps_sound steps w steps_sound) as [[b Hb] Hz Hf Hrep].
  remember (run_steps steps w) as x eqn:Hx. clear Hx. destruct x as [[r w1] t1].
  unfold result, world, trace in *. cbn [fst snd] in *. subst r.
  assert (∀ (ev : event) l, In ev (Print l :: t1) → (∀ c r, ev = Spawn c r → In ev t1))
    as Hcons.
  { intros ev l [<-|Hin] c r Heq; [discriminate|done]. }
  destruct b; split; cbn [fst snd].
  - eauto.
  - done.
  - intros cmd r Hin Hnz Htol. exfalso.
    destruct Hin as [Hin|Hin]; [discriminate|].
    apply in_app_or in Hin as [Hin|[Hin|[]]]; [|discriminate].
    by specialize (Hf _ _ Hin Hnz Htol).
  - intros cmd Hin. right. apply in_or_app. left. apply Hrep.
    destruct Hin as [Hin|Hin]; [discriminate|].
    by apply in_app_or in Hin as [Hin|[Hin|[]]]; [|discriminate].
  - eauto.
  - intros H. apply Hz. intros cmd r Hin. apply (H cmd r). by right.
  - done.
  - intros cmd Hin. right. apply Hrep. by destruct Hin as [Hin|Hin]; [discriminate|].
Qed.

Lemma run_subcommand_sound args w : sound (run_subcommand args w).
Proof.
  unfold run_subcommand. destruct (command args).
  - apply install_dependencies_sound.
  - apply run_tests_sound.
  - apply clean_build_sound.
  - apply build_package_sound.
  - apply run_lint_sound.
  - apply run_all_sound.
  - unfold show_help. unfold_monad. split; cbn; eauto.
    + intros cmd r [Hin|[]]. discriminate.
    + intros cmd [Hin|[]]. discriminate.
Qed.

(** *** What each step prints as headlines *)

Lemma install_dependencies_steps w :
  steps_printed (trace (install_dependencies w))
  = ["Installing dependencies and package"].
Proof.
  unfold install_dependencies, check_uv_installed. unfold_monad. cbn.
  repeat exec_step. all: reflexivity.
Qed.

Lemma run_tests_steps w :
  steps_printed (trace (run_tests false w)) = ["Running full test suite"].
Proof.
  unfold run_tests. unfold_monad. cbn.
  repeat exec_step. all: reflexivity.
Qed.

Lemma run_lint_steps w :
  steps_printed (trace (run_lint w)) = ["Running code quality checks"].
Proof.
  unfold run_lint, lint_flake8, lint_black. unfold_monad. cbn.
  repeat exec_step. all: reflexivity.
Qed.

Lemma build_package_steps w :
  steps_printed (trace (build_package w))
  = ["Building package"; "Cleaning build artifacts"].
Proof.
  unfold build_package. unfold_monad. cbn. rewrite clean_build_eq. cbn.
  repeat exec_step. all: reflexivity.
Qed.

Lemma steps_printed_app t1 t2 :
  steps_printed (t1 ++ t2) = steps_printed t1 ++ steps_printed t2.
Proof. apply omap_app. Qed.

Lemma sound_result x :
  sound x → result x = Ok (succeeded x).
Proof.
  intros [[b Hb] _ _ _]. unfold succeeded. rewrite Hb. by destruct b.
Qed.

Lemma run_steps_cons_sound step_name step_func rest w :
  sound (step_func w) →
  run_steps ((step_name, step_func) :: rest) w =
  if succeeded (step_func w)
  then (result (run_steps rest (world (step_func w))),
        world (run_steps rest (world (step_func w))),
        trace (step_func w) ++ trace (run_steps rest (world (step_func w))))
  else (Ok false, world (step_func w),
        trace (step_func w) ++ [failed_at step_name]).
Proof.
  intros Hs. apply sound_result in Hs. rewrite run_steps_cons.
  unfold succeeded, result, world, trace in *.
  destruct (step_func w) as [[r w1] t1]. cbn [fst snd] in *.
  rewrite Hs. by destruct (match r with Ok true => true | _ => false end).
Qed.

(** *** The pipeline, the exit codes, the missing tools *)

(** C4. [run_all] runs install, the full test suite, lint and build in this
    order and stops at the first step that does not return [True]: its result,
    final world and trace are those of the steps up to that one, followed by
    the line that names it, and the headlines printed are those of the steps
    run. *)
Theorem run_all_order (w : World) :
  let i := install_dependencies w in
  let t := run_tests false (world i) in
  let l := run_lint (world t) in
  let b := build_package (world l) in
  let headline := Print (Step "Running complete build pipeline") in
  run_all w =
    (if negb (succeeded i) then
       (Ok false, world i,
        headline :: trace i ++ [failed_at "Installing dependencies"])
     else if negb (succeeded t) then
       (Ok false, world t,
        headline :: trace i ++ trace t ++ [failed_at "Running tests"])
     else if negb (succeeded l) then
       (Ok false, world l,
        headline :: trace i ++ trace t ++ trace l
          ++ [failed_at "Running lint checks"])
     else if negb (succeeded b) then
       (Ok false, world b,
        headline :: trace i ++ trace t ++ trace l ++ trace b
          ++ [failed_at "Building package"])
     else
       (Ok true, world b,
        headline :: trace i ++ trace t ++ trace l ++ trace b
          ++ [Print (Success
                "🎉 Complete build pipeline completed successfully!")]))
  ∧ steps_printed (trace (run_all w)) =
      ["Running complete build pipeline"; "Installing dependencies and package"]
      ++ (if succeeded i then
            "Running full test suite"
            :: (if succeeded t then
                  "Running code quality checks"
                  :: (if succeeded l
                      then ["Building package"; "Cleaning build artifacts"]
                      else [])
                else [])
          else []).
Proof.
  cbv zeta.
  match goal with |- ?A ∧ _ => assert A as Heq end; [|split; [exact Heq|rewrite Heq]].
  - rewrite run_all_eq. unfold steps.
    rewrite run_steps_cons_sound by apply install_dependencies_sound.
    destruct (succeeded (install_dependencies w)); cbn [negb]; [|done].
    rewrite run_steps_cons_sound by apply run_tests_sound.
    destruct (succeeded (run_tests false _)); cbn [negb result world trace fst snd];
      [|by rewrite <- ?app_assoc].
    rewrite run_steps_cons_sound by apply run_lint_sound.
    destruct (succeeded (run_lint _)); cbn [negb result world trace fst snd];
      [|by rewrite <- ?app_assoc].
    rewrite run_steps_cons_sound by apply build_package_sound.
    destruct (succeeded (build_package _)); cbn [negb result world trace fst snd];
      [|by rewrite <- ?app_assoc].
    cbn [run_steps mret M_ret ret result world trace fst snd]. by rewrite ?app_nil_r, <- ?app_assoc.
  - unfold failed_at.
    destruct (succeeded (install_dependencies w)); cbn [negb];
      [destruct (succeeded (run_tests false _)); cbn [negb];
       [destruct (succeeded (run_lint _)); cbn [negb];
        [destruct (succeeded (build_package _)); cbn [negb]|]|]|].
    all: cbn [trace snd]; change (?x :: ?l) with ([x] ++ l);
      rewrite !steps_printed_app, install_dependencies_steps;
      rewrite ?run_tests_steps, ?run_lint_steps, ?build_package_steps;
      reflexivity.
Qed.

Lemma not_exit_zero r : exit_nonzero r ∨ r = NotFound → ¬ exit_zero r.
Proof. destruct r as [|c err]; cbn; intros [H|H]; tauto || congruence. Qed.

(** C2, as the code has it. For every subcommand: when every process it
    spawns exits with zero, its result is [True]; when a process exits with a
    non-zero code, its result is [False], unless that process is the first
    build attempt [python -m build] (the [setup.py] fallback then decides) or
    one of the two [--version] probes of [run_lint] (the tool is then
    skipped). *)
Theorem subcommand_result_by_exit_codes (args : Args) (w : World) :
  let x := run_subcommand args w in
  (all_exit_zero (trace x) → result x = Ok true)
  ∧ (∀ cmd r, In (Spawn cmd r) (trace x) → exit_nonzero r →
              ¬ In cmd tolerated → result x = Ok false).
Proof.
  destruct (run_subcommand_sound args w) as [_ Hz Hf _]. split; [done|].
  intros cmd r Hin Hnz Htol. apply (Hf cmd r); [done| |done].
  apply not_exit_zero. by left.
Qed.

(** C2 fails as stated: [python -m build] exits with 1, the fallback with 0,
    and [build_package] returns [True]. *)
Lemma build_fallback_hides_nonzero_exit :
  let x := build_package (build_module_missing []) in
  In (Spawn build_cmd (Exited 1 "No module named build")) (trace x)
  ∧ result x = Ok true.
Proof. vm_compute. split; [tauto|reflexivity]. Qed.

(** *** Tools that are not found *)

Ltac missing_leaf :=
  let cmd := fresh "cmd" in
  let Hin := fresh "Hin" in
  let Hp := fresh "Hp" in
  intros cmd Hin Hp; cbn in Hin;
  repeat (destruct Hin as [Hin|Hin];
          [ try discriminate Hin; injection Hin as <-;
            first [ reflexivity | exfalso; apply Hp; cbn; tauto ] |]);
  destruct Hin.

Lemma install_dependencies_missing w : fails_when_missing (install_dependencies w).
Proof.
  unfold fails_when_missing, install_dependencies, check_uv_installed.
  unfold_monad. cbn. repeat exec_step. all: missing_leaf.
Qed.

Lemma run_tests_missing quick w : fails_when_missing (run_tests quick w).
Proof.
  unfold fails_when_missing, run_tests. unfold_monad. destruct quick; cbn.
  all: repeat exec_step. all: missing_leaf.
Qed.

Lemma run_lint_missing w : fails_when_missing (run_lint w).
Proof.
  unfold fails_when_missing, run_lint, lint_flake8, lint_black.
  unfold_monad. cbn. repeat exec_step. all: missing_leaf.
Qed.

(** The two build attempts run the same executable: when the first is not
    found, neither is the fallback. *)
Lemma build_package_missing w :
  found_by_executable w → fails_when_missing (build_package w).
Proof.
  intros Hpath. unfold fails_when_missing, build_package. unfold_monad. cbn.
  rewrite clean_build_eq. cbn. rewrite run_command_eq. cbn.
  pose proof (Hpath build_cmd setup_py_cmd (fst (clean_patterns (fs w))) eq_refl)
    as Hboth.
  destruct (exec w build_cmd (fst (clean_patterns (fs w)))) as [[|rc err] f1];
    cbn in Hboth |- *.
  - rewrite run_command_eq. cbn.
    destruct (exec w setup_py_cmd (fst (clean_patterns (fs w))))
      as [[|rc2 err2] f2]; cbn in Hboth |- *.
    + missing_leaf.
    + by specialize (Hboth eq_refl).
  - clear Hboth. repeat exec_step. all: missing_leaf.
Qed.

Lemma install_dependencies_exec w : exec (world (install_dependencies w)) = exec w.
Proof.
  unfold install_dependencies, check_uv_installed. unfold_monad. cbn.
  repeat exec_step. all: reflexivity.
Qed.

Lemma run_tests_exec quick w : exec (world (run_tests quick w)) = exec w.
Proof.
  unfold run_tests. unfold_monad. destruct quick; cbn.
  all: repeat exec_step. all: reflexivity.
Qed.

Lemma run_lint_exec w : exec (world (run_lint w)) = exec w.
Proof.
  unfold run_lint, lint_flake8, lint_black. unfold_monad. cbn.
  repeat exec_step. all: reflexivity.
Qed.

Lemma build_package_exec w : exec (world (build_package w)) = exec w.
Proof.
  unfold build_package. unfold_monad. cbn. rewrite clean_build_eq. cbn.
  repeat exec_step. all: reflexivity.
Qed.

Lemma run_steps_missing steps w :
  (∀ step, In step steps → ∀ w, exec (world (snd step w)) = exec w) →
  (∀ step, In step steps →
           ∀ w, found_by_executable w → fails_when_missing (snd step w)) →
  found_by_executable w →
  fails_when_missing (run_steps steps w).
Proof.
  revert w. induction steps as [|[step_name step_func] rest IH];
    intros w Hex Hall Hw.
  { intros cmd []. }
  rewrite run_steps_cons.
  pose proof (Hall (step_name, step_func) (or_introl eq_refl) w Hw) as Hs.
  pose proof (Hex (step_name, step_func) (or_introl eq_refl) w) as He.
  cbn [snd] in Hs, He.
  assert (fails_when_missing (run_steps rest (world (step_func w)))) as Hr.
  { apply IH.
    - intros step Hin. apply Hex. by right.
    - intros step Hin. apply Hall. by right.
    - unfold found_by_executable. rewrite He. exact Hw. }
  unfold fails_when_missing, result, world, trace in *.
  destruct (step_func w) as [[[[]|e] w1] t1]; cbn [fst snd] in *.
  - intros cmd Hin Hp. apply in_app_or in Hin as [Hin|Hin].
    + by specialize (Hs _ Hin Hp).
    + by apply (Hr cmd).
  - done.
  - intros cmd Hin Hp. by specialize (Hs _ Hin Hp).
Qed.

Lemma run_all_missing w :
  found_by_executable w → fails_when_missing (run_all w).
Proof.
  intros Hw. rewrite run_all_eq.
  assert (fails_when_missing (run_steps steps w)) as Hs.
  { apply run_steps_missing; [| |exact Hw].
    - intros step [<-|[<-|[<-|[<-|[]]]]] w'; cbn [snd].
      + apply install_dependencies_exec.
      + apply run_tests_exec.
      + apply run_lint_exec.
      + apply build_package_exec.
    - intros step [<-|[<-|[<-|[<-|[]]]]] w' Hw'; cbn [snd].
      + apply install_dependencies_missing.
      + apply run_tests_missing.
      + apply run_lint_missing.
      + by apply build_package_missing. }
  unfold fails_when_missing, result, trace in *.
  destruct (run_steps steps w) as [[[[]|e] w1] t1]; cbn [fst snd] in *.
  - intros cmd [Hin|Hin] Hp; [discriminate Hin|].
    apply in_app_or in Hin as [Hin|[Hin|[]]]; [|discriminate Hin].
    by specialize (Hs _ Hin Hp).
  - done.
  - intros cmd [Hin|Hin] Hp; [discriminate Hin|]. by specialize (Hs _ Hin Hp).
Qed.

Lemma run_subcommand_missing args w :
  found_by_executable w → fails_when_missing (run_subcommand args w).
Proof.
  intros Hw. unfold run_subcommand. destruct (command args).
  - apply install_dependencies_missing.
  - apply run_tests_missing.
  - rewrite clean_build_eq. missing_leaf.
  - by apply build_package_missing.
  - apply run_lint_missing.
  - by apply run_all_missing.
  - unfold show_help. unfold_monad. missing_leaf.
Qed.

(** C5, as the code has it. No subcommand raises. When a tool it spawns is
    not found, the step prints the line that says so (an error, or for the
    probes of [run_lint] a warning). Where a command is found or not by its
    executable, as on a search path, the result is then [False] unless the
    missing command is a probe of [run_lint] (the tool is skipped). Without
    that assumption the result is [False] for every missing command but the
    probes and the first build attempt. *)
Theorem missing_tool_is_reported (args : Args) (w : World) :
  let x := run_subcommand args w in
  (∃ b, result x = Ok b)
  ∧ (∀ cmd, In (Spawn cmd NotFound) (trace x) →
            In (Print (report_of cmd)) (trace x)
            ∧ (found_by_executable w → ¬ In cmd lint_probes →
               result x = Ok false)
            ∧ (¬ In cmd tolerated → result x = Ok false)).
Proof.
  destruct (run_subcommand_sound args w) as [Hb _ Hf Hrep]. split; [done|].
  intros cmd Hin. split; [by apply Hrep|]. split.
  - intros Hw Hp. by apply (run_subcommand_missing args w Hw cmd).
  - intros Htol. apply (Hf cmd NotFound); [done| |done].
    apply not_exit_zero. by right.
Qed.

(** C5 at work: no tool is on the search path; [build] tries both build
    commands, reports both and returns [False]. *)
Lemma missing_tool_is_reported_witness :
  let x := run_subcommand {| command := Build; quick := false |}
             (nothing_installed []) in
  In (Print (Error "Command not found: python")) (trace x)
  ∧ result x = Ok false.
Proof.
  destruct (missing_tool_is_reported {| command := Build; quick := false |}
              (nothing_installed [])) as [_ H].
  destruct (H build_cmd) as (Hrep & Hfail & _).
  { vm_compute. tauto. }
  split; [exact Hrep|]. apply Hfail.
  - intros cmd cmd' f _ _. reflexivity.
  - vm_compute. intros [H1|[H1|[]]]; discriminate H1.
Defined.

(** C5 fails as stated: with neither flake8 nor black on the search path
    [run_lint] warns twice and returns [True]. *)
Lemma lint_without_tools_succeeds :
  let x := run_lint (nothing_installed []) in
  In (Spawn flake8_version NotFound) (trace x)
  ∧ In (Spawn black_version NotFound) (trace x)
  ∧ result x = Ok true.
Proof. vm_compute. repeat split; tauto. Qed.

(** C7. The exit status of the build script: 0 for [help], and for every
    other command 1 exactly when the command's result is failure. *)
Theorem main_exit_code (args : Args) (w : World) :
  exit_code (result (main args w)) =
    if is_help (command args) then 0
    else if succeeded (run_subcommand args w) then 0 else 1.
Proof.
  pose proof (sound_result _ (run_subcommand_sound args w)) as Hr.
  unfold main. unfold_monad. cbn -[run_subcommand].
  unfold succeeded, result in *.
  remember (run_subcommand args w) as x eqn:Hx. clear Hx.
  destruct x as [[r w1] t1]. cbn [fst snd] in *.
  destruct r as [[]|e]; [| |discriminate Hr]; cbn; by destruct (is_help _).
Qed.

(** ** The test runner *)

Lemma runner_run_command_eq self cmd description w :
  RunTests.run_command self cmd description w =
  match exec w cmd (fs w) with
  | (NotFound, _) =>
      (Raise FileNotFoundError, w,
       announce description cmd ++ [Spawn cmd NotFound])
  | (Exited c err, f') =>
      if c =? 0 then
        (Ok {| returncode := c; stderr := err |}, with_fs f' w,
         announce description cmd ++ [Spawn cmd (Exited c err)])
      else
        (Raise (SystemExit c), with_fs f' w,
         announce description cmd
         ++ [Spawn cmd (Exited c err);
             Print (Plain ("❌ Command failed with exit code " +:+ Str.of_Z c))])
  end.
Proof.
  unfold RunTests.run_command, announce, mbind, M_bind, bind, subprocess_run,
    print, when, mret, M_ret, ret, sys_exit, raise.
  destruct (Str.nonempty description); cbn;
    destruct (exec w cmd (fs w)) as [[|c err] f']; cbn; try reflexivity;
    destruct (c =? 0); reflexivity.
Qed.

Lemma spawned_app t1 t2 : spawned (t1 ++ t2) = spawned t1 ++ spawned t2.
Proof. apply omap_app. Qed.

Lemma spawned_announce description cmd : spawned (announce description cmd) = [].
Proof. unfold announce. by destruct (Str.nonempty description). Qed.

(** A command of the runner spawns exactly the process it is given. *)
Lemma runner_run_command_spawned self cmd description w :
  spawned (trace (RunTests.run_command self cmd description w)) = [cmd].
Proof.
  rewrite runner_run_command_eq.
  destruct (exec w cmd (fs w)) as [[|c err] f']; [|destruct (c =? 0)];
    unfold trace; cbn [snd]; by rewrite spawned_app, spawned_announce.
Qed.

#[local] Arguments RunTests.run_command : simpl never.
#[local] Arguments announce : simpl never.
#[local] Arguments Str.sorted : simpl never.
#[local] Arguments Str.of_nat : simpl never.
#[local] Arguments FS.exists_ : simpl never.
#[local] Arguments FS.glob : simpl never.
#[local] Arguments RunTests.run_tests_cmd : simpl never.
#[local] Arguments RunTests.run_tests_description : simpl never.
#[local] Arguments RunTests.test_dir_str : simpl never.
#[local] Arguments Str.of_Z : simpl never.
#[local] Arguments Str.join : simpl never.
#[local] Arguments String.append : simpl never.

Ltac unfold_runner :=
  unfold RunTests.main, RunTests.run_quick_tests, RunTests.run_integration_tests,
    RunTests.run_coverage_report, RunTests.run_tests, RunTests.install_dependencies,
    RunTests.install_package, RunTests.lint_tests, RunTests.import_pytest,
    RunTests.sys_executable,
    mbind, M_bind, bind, try_except, print, when, mret, M_ret, ret, sys_exit,
    raise, path_exists, result, world, trace in *.

Ltac runner_step :=
  first
    [ rewrite runner_run_command_eq
    | match goal with
      | |- context [exec ?w ?c ?f] =>
          let rc := fresh "rc" in
          let err := fresh "err" in
          let f' := fresh "f" in
          destruct (exec w c f) as [[|rc err] f'];
          [|destruct (Z.eqb_spec rc 0) as [->|?]]
      end ];
  cbn.

Lemma main_test_modes_spawned self args w :
  RunTests.setup args = false → RunTests.check args = false →
  RunTests.lint args = false →
  FS.exists_ requirements (fs w) = true →
  pytest_importable w = true →
  spawned (trace (RunTests.main self args w))
  = [selected_cmd self args (executable w)].
Proof.
  intros Hs Hc Hl Hreq Himp. unfold selected_cmd. unfold_runner.
  rewrite Hs, Hc, Hl. cbn. unfold requirements in Hreq. cbn in Hreq.
  rewrite Hreq. cbn. rewrite Himp. cbn.
  destruct (RunTests.quick args); [|destruct (RunTests.integration args);
    [|destruct (RunTests.coverage args)]]; cbn.
  all: repeat runner_step.
  all: rewrite ?app_nil_r, ?spawned_app, ?spawned_announce; reflexivity.
Qed.

(** The same modes when pytest is missing and its installation succeeds. *)
Lemma main_test_modes_after_install self args w :
  RunTests.setup args = false → RunTests.check args = false →
  RunTests.lint args = false →
  FS.exists_ requirements (fs w) = true →
  pytest_importable w = false →
  exit_zero (fst (exec w (pip_requirements w) (fs w))) →
  spawned (trace (RunTests.main self args w))
  = [pip_requirements w; selected_cmd self args (executable w)].
Proof.
  intros Hs Hc Hl Hreq Himp Hz. unfold selected_cmd, pip_requirements in *.
  unfold_runner.
  rewrite Hs, Hc, Hl. cbn. unfold requirements in Hreq. cbn in Hreq.
  rewrite Hreq. cbn. rewrite Himp. cbn.
  rewrite runner_run_command_eq.
  destruct (exec w _ (fs w)) as [[|rc err] f1]; cbn in Hz; [destruct Hz|].
  subst rc. cbn.
  destruct (RunTests.quick args); [|destruct (RunTests.integration args);
    [|destruct (RunTests.coverage args)]]; cbn.
  all: repeat runner_step.
  all: rewrite ?app_nil_r, ?spawned_app, ?spawned_announce; reflexivity.
Qed.

(** C3, as the code has it. An invocation that reaches the tests (none of
    [--setup], [--check], [--lint]; the requirements file is there; when
    pytest cannot be imported, the installation of the test requirements
    exits with zero) runs exactly one mode: after that installation, if there
    was one, it spawns exactly one process, the one of the first mode given
    among quick, integration, coverage, else the default run built from the
    flags. With [--quick] it is the quick command, whatever the other
    flags. *)
Theorem test_mode_by_priority (self : RunTests.TestRunner) (args : RunTests.Args)
    (w : World) :
  RunTests.setup args = false → RunTests.check args = false →
  RunTests.lint args = false →
  FS.exists_ requirements (fs w) = true →
  (pytest_importable w = false →
   exit_zero (fst (exec w (pip_requirements w) (fs w)))) →
  spawned (trace (RunTests.main self args w))
  = (if pytest_importable w then [] else [pip_requirements w])
    ++ [ if RunTests.quick args then RunTests.quick_cmd self (executable w)
         else if RunTests.integration args
         then RunTests.integration_cmd self (executable w)
         else if RunTests.coverage args
         then RunTests.coverage_report_cmd self (executable w)
         else RunTests.run_tests_cmd self (executable w) args ]
  ∧ (RunTests.quick args = true →
     spawned (trace (RunTests.main self args w))
     = (if pytest_importable w then [] else [pip_requirements w])
       ++ [[ executable w; "-m"; "pytest"; RunTests.test_dir_str self; "-m";
             "unit or (not integration and not slow)"; "-v" ]]).
Proof.
  intros Hs Hc Hl Hreq Hinst.
  assert (spawned (trace (RunTests.main self args w))
          = (if pytest_importable w then [] else [pip_requirements w])
            ++ [selected_cmd self args (executable w)]) as H.
  { destruct (pytest_importable w) eqn:Himp.
    - by apply main_test_modes_spawned.
    - apply main_test_modes_after_install; auto. }
  unfold selected_cmd in H. split; [exact H|].
  intros Hq. by rewrite H, Hq.
Qed.

(** C3 at work: [--quick --coverage] in a project that has its requirements
    file, with pytest installed and with pytest missing. *)
Lemma test_mode_by_priority_witness :
  spawned (trace (RunTests.main runner quick_and_coverage
                    (all_succeed project_tree)))
  = [[ "python3"; "-m"; "pytest"; "tests"; "-m";
       "unit or (not integration and not slow)"; "-v" ]]
  ∧ spawned (trace (RunTests.main runner quick_and_coverage
                      (pytest_missing project_tree)))
    = [ ["python3"; "-m"; "pip"; "install"; "-r"; "tests/test_requirements.txt"];
        [ "python3"; "-m"; "pytest"; "tests"; "-m";
          "unit or (not integration and not slow)"; "-v" ] ].
Proof.
  split.
  - refine (proj2 (test_mode_by_priority runner quick_and_coverage
                     (all_succeed project_tree)
                     eq_refl eq_refl eq_refl eq_refl _) eq_refl).
    discriminate.
  - refine (proj2 (test_mode_by_priority runner quick_and_coverage
                     (pytest_missing project_tree)
                     eq_refl eq_refl eq_refl eq_refl _) eq_refl).
    intros _. reflexivity.
Defined.

(** C3 fails as stated: with [--setup --quick] the runner installs and
    returns; the quick command is never spawned. *)
Lemma setup_preempts_quick :
  RunTests.quick setup_and_quick = true
  ∧ spawned (trace (RunTests.main runner setup_and_quick
                      (all_succeed project_tree)))
    = [ ["python3"; "-m"; "pip"; "install"; "-r"; "tests/test_requirements.txt"];
        ["python3"; "-m"; "pip"; "install"; "-e"; "."] ]
  ∧ ¬ In (RunTests.quick_cmd runner "python3")
        (spawned (trace (RunTests.main runner setup_and_quick
                           (all_succeed project_tree)))).
Proof.
  split; [reflexivity|]. split; [reflexivity|].
  vm_compute. intros [H|[H|[]]]; discriminate H.
Qed.

(** C1, on the code. With [--coverage --coverage-fail 90] the runner takes
    the coverage-report mode, whose command carries the fixed threshold 85:
    the value 90 appears nowhere in what is spawned, although the command the
    default mode would build from the same flags carries it. The quick marker
    expression is absent, as claimed. *)
Theorem coverage_fail_flag_ignored :
  let x := RunTests.main runner coverage_fail_90 (all_succeed project_tree) in
  spawned (trace x)
  = [[ "python3"; "-m"; "pytest"; "tests"; "--cov=src/opencodespace";
       "--cov-report=term-missing"; "--cov-report=html:htmlcov";
       "--cov-report=xml"; "--cov-fail-under=85" ]]
  ∧ Forall (λ cmd, ¬ In "--cov-fail-under=90" cmd
                   ∧ ¬ In RunTests.quick_marker cmd) (spawned (trace x))
  ∧ In "--cov-fail-under=90"
      (RunTests.run_tests_cmd runner "python3" coverage_fail_90).
Proof.
  cbv zeta. split; [reflexivity|]. split.
  - vm_compute. repeat constructor; intros H; repeat (destruct H as [H|H]; [discriminate H|]); destruct H.
  - vm_compute. tauto.
Qed.

(** *** The requirements file *)

Lemma print_all_eq ls w :
  RunTests.print_all ls w = (Ok tt, w, List.map (λ l, Print (Plain l)) ls).
Proof.
  revert w. induction ls as [|l ls IH]; intros w; [done|].
  cbn [RunTests.print_all]. unfold mbind, M_bind, bind, print. by rewrite IH.
Qed.

Ltac differ H :=
  cbv beta iota zeta delta [String.append RunTests.requirements_missing] in H;
  discriminate H.

Lemma announce_other_line description cmd :
  ¬ In (Print RunTests.requirements_missing) (announce description cmd).
Proof.
  unfold announce. intros H. apply in_app_or in H as [H|H].
  - destruct (Str.nonempty description); [|done].
    destruct H as [H|[]]. differ H.
  - destruct H as [H|[]]. differ H.
Qed.

Lemma listing_other_line names :
  ¬ In (Print RunTests.requirements_missing)
      (List.map (λ l, Print (Plain l)) (List.map (λ n, "  - " +:+ n) names)).
Proof.
  intros H. apply in_map_iff in H as (l & Hl & H).
  apply in_map_iff in H as (n & <- & _). differ Hl.
Qed.

Lemma forallb_announce description cmd :
  forallb zero_event (announce description cmd) = true.
Proof. unfold announce. by destruct (Str.nonempty description). Qed.

Ltac refute_runner_zero H :=
  apply all_exit_zero_forallb in H; cbn in H;
  repeat (rewrite ?forallb_app, ?forallb_announce in H; cbn in H);
  repeat match goal with
         | n : _ ≠ 0 |- _ =>
             apply Z.eqb_neq in n; rewrite ?n in H; cbn in H
         end;
  discriminate H.

Lemma spawned_lines ls : spawned (List.map (λ l, Print (Plain l)) ls) = [].
Proof. by induction ls. Qed.

Ltac not_printed :=
  let H := fresh "Hline" in
  intros H;
  repeat first
    [ apply in_app_or in H as [H|H]
    | destruct H as [H|H]; [differ H|]
    | exact (announce_other_line _ _ H)
    | exact (listing_other_line _ H)
    | destruct H ].

Lemma test_modes_need_requirements self args w :
  FS.exists_ requirements (fs w) = false →
  RunTests.setup args = false → RunTests.check args = false →
  RunTests.lint args = false →
  result (RunTests.main self args w) = Raise (SystemExit 1)
  ∧ exit_code (result (RunTests.main self args w)) = 1
  ∧ spawned (trace (RunTests.main self args w)) = []
  ∧ In (Print RunTests.requirements_missing) (trace (RunTests.main self args w)).
Proof.
  intros Hreq Hs Hc Hl. unfold requirements in Hreq. cbn in Hreq.
  unfold_runner. rewrite Hs, Hc, Hl. cbn. rewrite Hreq. cbn.
  repeat split; tauto.
Qed.

(** C10. Without [tests/test_requirements.txt]: the modes that run tests
    exit with 1 and spawn nothing; [--setup] goes on to spawn the dependency
    installation, [--check] only inspects the tree and fails only when there
    is no test file, [--lint] spawns flake8, and none of the three prints the
    line about the missing file. *)
Theorem requirements_file_required (self : RunTests.TestRunner)
    (args : RunTests.Args) (w : World) :
  FS.exists_ requirements (fs w) = false →
  let x := RunTests.main self args w in
  if RunTests.setup args then
    head (spawned (trace x))
    = Some [executable w; "-m"; "pip"; "install"; "-r";
            "tests/test_requirements.txt"]
    ∧ ¬ In (Print RunTests.requirements_missing) (trace x)
    ∧ (all_exit_zero (trace x) → result x = Ok tt)
  else if RunTests.check args then
    spawned (trace x) = []
    ∧ ¬ In (Print RunTests.requirements_missing) (trace x)
    ∧ result x = match FS.glob RunTests.test_dir "test_*.py" (fs w) with
                 | [] => Raise (SystemExit 1)
                 | _ :: _ => Ok tt
                 end
  else if RunTests.lint args then
    spawned (trace x)
    = [[executable w; "-m"; "flake8"; RunTests.test_dir_str self]]
    ∧ ¬ In (Print RunTests.requirements_missing) (trace x)
    ∧ (all_exit_zero (trace x) → result x = Ok tt)
  else
    result x = Raise (SystemExit 1)
    ∧ exit_code (result x) = 1
    ∧ spawned (trace x) = []
    ∧ In (Print RunTests.requirements_missing) (trace x).
Proof.
  intros Hreq. cbv zeta. unfold requirements in Hreq. cbn in Hreq.
  destruct (RunTests.setup args) eqn:Hs;
    [|destruct (RunTests.check args) eqn:Hc;
      [|destruct (RunTests.lint args) eqn:Hl]].
  - unfold_runner. rewrite Hs. cbn.
    repeat runner_step.
    all: rewrite ?app_nil_r, ?spawned_app, ?spawned_announce.
    all: split; [reflexivity|split; [not_printed|]].
    all: try reflexivity.
    all: intros H; refute_runner_zero H.
  - unfold_runner. rewrite Hs, Hc. cbn.
    unfold RunTests.check_test_structure, RunTests.glob_test_files.
    unfold_runner. cbn.
    destruct (FS.glob RunTests.test_dir "test_*.py" (fs w)) as [|p ps]; cbn.
    + split; [reflexivity|split; [not_printed|reflexivity]].
    + rewrite print_all_eq. cbn.
      destruct (FS.exists_ ["tests"; "conftest.py"] (fs w)); cbn.
      all: rewrite Hreq; cbn.
      all: change (?a :: ?b :: ?c :: ?d :: ?l ++ ?r)
             with ([a; b; c; d] ++ l ++ r).
      all: rewrite !spawned_app, spawned_lines.
      all: split; [reflexivity|split; [not_printed|reflexivity]].
  - unfold_runner. rewrite Hs, Hc, Hl. cbn.
    repeat runner_step.
    all: rewrite ?app_nil_r, ?spawned_app, ?spawned_announce.
    all: split; [reflexivity|split; [not_printed|]].
    all: try reflexivity.
    all: intros H; refute_runner_zero H.
  - apply test_modes_need_requirements; [|done..].
    unfold requirements. by cbn.
Qed.

(** C10 at work: [--coverage --coverage-fail 90] in a project without the
    requirements file. *)
Lemma requirements_file_required_witness :
  let x := RunTests.main runner coverage_fail_90 (all_succeed []) in
  result x = Raise (SystemExit 1)
  ∧ exit_code (result x) = 1
  ∧ spawned (trace x) = []
  ∧ In (Print RunTests.requirements_missing) (trace x).
Proof.
  apply (requirements_file_required runner coverage_fail_90 (all_succeed [])).
  reflexivity.
Defined.

(** *** A missing requirements file in the build script *)





(** * Further properties of the code *)

(** ** More about cleaning *)

Lemma filter_shrinks {A} (g : A → bool) (l : list A) (x : A) :
  In x l → g x = false → (length (List.filter g l) < length l)%nat.
Proof.
  induction l as [|y l IH]; intros Hin Hg; [destruct Hin|].
  cbn [List.filter]. pose proof (filter_length_le g l) as Hle.
  destruct Hin as [->|Hin].
  - rewrite Hg. cbn [length]. lia.
  - specialize (IH Hin Hg). destruct (g y); cbn [length]; lia.
Qed.

Lemma find_Some_key p f k : FS.find p f = Some k → In (p, k) f.
Proof.
  induction f as [|[q k'] f IH]; cbn [FS.find]; [done|].
  unfold FS.path_eqb. case_bool_decide as Hpq.
  - intros [= ->]. left. by rewrite Hpq.
  - intros H. right. by apply IH.
Qed.

Lemma is_prefix_refl p : FS.is_prefix p p = true.
Proof.
  induction p as [|a p IH]; cbn [FS.is_prefix]; [done|].
  by rewrite bool_decide_eq_true_2, IH.
Qed.

Lemma accounted_refl st : accounted st st.
Proof. unfold accounted. auto with lia. Qed.

Lemma accounted_trans st1 st2 st3 :
  accounted st1 st2 → accounted st2 st3 → accounted st1 st3.
Proof.
  unfold accounted. intros (H1 & H2 & H3) (H4 & H5 & H6).
  split; [lia|]. split; [lia|].
  intros Heq. assert (snd st2 = snd st1) as H21 by lia.
  assert (snd st3 = snd st2) as H32 by lia.
  rewrite (H6 H32). by apply H3.
Qed.

Lemma remove_path_accounted st p : accounted st (remove_path st p).
Proof.
  destruct st as [f n]. unfold remove_path, FS.exists_, FS.is_dir.
  destruct (FS.find p f) as [k|] eqn:Hf; [|apply accounted_refl].
  apply find_Some_key in Hf.
  assert (length (FS.rmtree p f) < length f
          ∧ length (FS.unlink p f) < length f)%nat as [Hr Hu].
  { split; apply (filter_shrinks _ _ (p, k)); try done; cbn [fst].
    - by rewrite is_prefix_refl.
    - unfold FS.path_eqb. by rewrite bool_decide_eq_true_2. }
  unfold accounted. destruct k; cbn [fst snd]; repeat split; lia.
Qed.

Lemma fold_remove_accounted ps st :
  accounted st (fold_left remove_path ps st).
Proof.
  revert st. induction ps as [|p ps IH]; intros st; [apply accounted_refl|].
  cbn [fold_left]. eapply accounted_trans; [apply remove_path_accounted|apply IH].
Qed.

Lemma fold_clean_accounted patterns st :
  accounted st (fold_left clean_pattern patterns st).
Proof.
  revert st. induction patterns as [|a l IH]; intros st; [apply accounted_refl|].
  cbn [fold_left]. eapply accounted_trans; [apply fold_remove_accounted|apply IH].
Qed.

(** X1. The counter [clean_build] reports never exceeds the number of entries
    that left the tree, the tree only loses entries, and the counter is 0
    exactly when the tree is unchanged. *)
Theorem clean_patterns_count (f : FS.t) :
  (length (fst (clean_patterns f)) + snd (clean_patterns f) ≤ length f)%nat
  ∧ incl (fst (clean_patterns f)) f
  ∧ (snd (clean_patterns f) = O ↔ fst (clean_patterns f) = f).
Proof.
  destruct (fold_clean_accounted patterns_to_remove (f, O)) as (H1 & H2 & H3).
  fold (clean_patterns f) in *. cbn [fst snd] in *.
  split; [lia|]. split; [apply (fold_clean_incl patterns_to_remove (f, O))|].
  split; [exact H3|]. intros Heq. rewrite Heq in H2. lia.
Qed.

(** X2. On a tree made of regular files and directories, after [clean_build]
    every glob of the script comes back empty: no file or directory that
    matches a pattern is left. (A symbolic link is no entry of [FS.t]: the
    statement says nothing about a tree that holds one.) *)
Theorem clean_build_leaves_no_artifact (w : World) :
  Forall (λ pattern, paths_of pattern (fs (world (clean_build w))) = [])
    patterns_to_remove.
Proof.
  apply Forall_forall. intros pattern Hp. apply list_elem_of_In in Hp.
  rewrite paths_of_selects, filter_none; [done|].
  intros e He. by apply (fold_clean_none_left patterns_to_remove (fs w, O)).
Qed.

Lemma remove_path_keeps st p e :
  In e (fst st) → FS.is_prefix p (fst e) = false →
  In e (fst (remove_path st p)).
Proof.
  destruct st as [f n]. intros He Hp. unfold remove_path.
  destruct (FS.exists_ p f); [|done]. cbn [fst] in *.
  destruct (FS.is_dir p f); apply filter_In; (split; [done|]).
  - by rewrite Hp.
  - unfold FS.path_eqb. case_bool_decide as Heq; [|done].
    rewrite Heq, is_prefix_refl in Hp. discriminate.
Qed.

Lemma fold_remove_keeps ps st e :
  In e (fst st) → (∀ p, In p ps → FS.is_prefix p (fst e) = false) →
  In e (fst (fold_left remove_path ps st)).
Proof.
  revert st. induction ps as [|p ps IH]; intros st He Hps; [done|].
  cbn [fold_left]. apply IH.
  - apply remove_path_keeps; [done|]. apply Hps. by left.
  - intros q Hq. apply Hps. by right.
Qed.

Lemma fold_clean_keeps patterns f0 st e :
  incl (fst st) f0 → In e (fst st) →
  (∀ pattern e', In pattern patterns → In e' f0 → selects pattern e' = true →
                 FS.is_prefix (fst e') (fst e) = false) →
  In e (fst (fold_left clean_pattern patterns st)).
Proof.
  revert st. induction patterns as [|a l IH]; intros st Hsub He Hsafe; [done|].
  cbn [fold_left]. apply IH.
  - eapply incl_tran; [apply clean_pattern_incl|done].
  - apply fold_remove_keeps; [done|]. intros p Hp.
    rewrite paths_of_selects in Hp. apply in_map_iff in Hp as (e' & <- & He').
    apply filter_In in He' as [He' Hsel].
    apply (Hsafe a e'); [by left|by apply Hsub|done].
  - intros pattern e' Hp. apply Hsafe. by right.
Qed.

(** X3. [clean_build] removes nothing else: an entry survives when no entry
    that some pattern selects is the entry itself or one of its ancestors. *)
Theorem clean_build_keeps_the_rest (w : World) (e : FS.entry) :
  In e (fs w) →
  (∀ pattern e', In pattern patterns_to_remove → In e' (fs w) →
                 selects pattern e' = true →
                 FS.is_prefix (fst e') (fst e) = false) →
  In e (fs (world (clean_build w))).
Proof.
  intros He Hsafe.
  apply (fold_clean_keeps patterns_to_remove (fs w) (fs w, O));
    [apply incl_refl|exact He|exact Hsafe].
Qed.

(** The source file of the littered checkout survives. *)
Lemma clean_build_keeps_the_rest_witness :
  In (["src"; "main.py"], FS.File)
    (fs (world (clean_build (all_succeed littered_tree)))).
Proof.
  apply (clean_build_keeps_the_rest (all_succeed littered_tree)).
  - vm_compute. tauto.
  - intros pattern e' Hp He'. cbn [fs all_succeed] in He'.
    unfold patterns_to_remove in Hp. cbn [In] in Hp. unfold littered_tree in He'.
    cbn [In] in He'.
    repeat (destruct Hp as [<-|Hp]; [|]); try destruct Hp;
      repeat (destruct He' as [<-|He']; [|]); try destruct He';
      vm_compute; congruence.
Defined.

(** ** More about the build script *)



Ltac pick_line := repeat first [left; reflexivity | right].

Ltac within :=
  repeat (constructor; [cbn; first [exact I | pick_line]|]); constructor.

Ltac zeros := repeat (constructor; [reflexivity|]); constructor.



Ltac in_order :=
  repeat first
    [ apply sublist_nil_l | apply sublist_skip | apply sublist_cons ].


(** X6. [build_package] tries [python -m build] and goes on to [setup.py]
    exactly when that first attempt did not exit with zero; it returns
    [True] exactly when the last command it ran exited with zero. *)
Theorem build_package_fallback (w : World) :
  let x := build_package w in
  match outcomes (trace x) with
  | [r1] => exit_zero r1 ∧ spawned (trace x) = [build_cmd] ∧ result x = Ok true
  | [r1; r2] =>
      ¬ exit_zero r1
      ∧ spawned (trace x) = [build_cmd; setup_py_cmd]
      ∧ (∃ b, result x = Ok b)
      ∧ (result x = Ok true ↔ exit_zero r2)
  | _ => False
  end.
Proof.
  cbv zeta. unfold build_package. unfold_monad. cbn. rewrite clean_build_eq.
  cbn. repeat exec_step.
  all: cbn; repeat split; eauto; try tauto; try congruence.
Qed.

Ltac some_spawn tac :=
  match goal with
  | |- context [Spawn ?c ?r] => exists c, r; solve [tac]
  end.

Ltac no_spawn H :=
  let cmd := fresh "cmd" in
  let r := fresh "r" in
  let Hin := fresh "Hin" in
  let Hcmd := fresh "Hcmd" in
  let Hr := fresh "Hr" in
  destruct H as (cmd & r & Hin & Hcmd & Hr); cbn in Hin;
  repeat (destruct Hin as [Hin|Hin];
          [ try discriminate Hin; injection Hin as <- <-;
            first [ exfalso; apply Hr; reflexivity
                  | exfalso; cbn in Hcmd;
                    repeat (destruct Hcmd as [Hcmd|Hcmd];
                            [discriminate Hcmd|]); destruct Hcmd ] |]);
  destruct Hin.

(** X7. [run_lint] does not stop at the first failing check: both tools are
    always probed. A check is run only when its probe exited with zero, and
    the result is [False] exactly when a check that was run did not exit
    with zero. *)
Theorem run_lint_checks_both (w : World) :
  let x := run_lint w in
  In flake8_version (spawned (trace x))
  ∧ In black_version (spawned (trace x))
  ∧ (In flake8_check (spawned (trace x)) →
     ∃ err, In (Spawn flake8_version (Exited 0 err)) (trace x))
  ∧ (In black_check (spawned (trace x)) →
     ∃ err, In (Spawn black_version (Exited 0 err)) (trace x))
  ∧ (∃ b, result x = Ok b)
  ∧ (result x = Ok false ↔
     ∃ cmd r, In (Spawn cmd r) (trace x)
              ∧ In cmd [flake8_check; black_check] ∧ ¬ exit_zero r).
Proof.
  cbv zeta. unfold run_lint, lint_flake8, lint_black. unfold_monad. cbn.
  repeat exec_step.
  all: split; [solve [cbn; pick_line]|]; split; [solve [cbn; pick_line]|].
  all: split;
    [ cbn; intros H;
      first [ solve [eexists; pick_line]
            | repeat (destruct H as [H|H]; [discriminate H|]); destruct H ] |].
  all: split;
    [ cbn; intros H;
      first [ solve [eexists; pick_line]
            | repeat (destruct H as [H|H]; [discriminate H|]); destruct H ] |].
  all: split; [eauto|]. 
  all: split;
    [ intros H; first [ discriminate H
               | some_spawn ltac:(split; [solve [cbn; pick_line]|];
                   split; [solve [cbn; pick_line]|];
                   cbn; first [tauto|congruence|assumption]) ]
    | intros H; first [ reflexivity | no_spawn H ] ].
Qed.

Lemma run_steps_forall (P : event → Prop) steps w :
  (∀ step, In step steps → ∀ w, Forall P (trace (snd step w))) →
  (∀ step_name, P (failed_at step_name)) →
  Forall P (trace (run_steps steps w)).
Proof.
  intros Hall Hfail. revert w.
  induction steps as [|[step_name step_func] rest IH]; intros w.
  { constructor. }
  rewrite run_steps_cons.
  pose proof (Hall (step_name, step_func) (or_introl eq_refl) w) as Hs.
  cbn [snd] in Hs.
  assert (∀ w, Forall P (trace (run_steps rest w))) as Hr.
  { apply IH. intros step Hin. apply Hall. by right. }
  unfold trace in *.
  destruct (step_func w) as [[[[]|e] w1] t1]; cbn [snd] in *.
  - apply Forall_app. split; [done|apply Hr].
  - apply Forall_app. split; [done|]. by repeat constructor.
  - done.
Qed.

Lemma install_dependencies_within w :
  Forall (spawns_within pipeline_commands) (trace (install_dependencies w)).
Proof.
  unfold install_dependencies, check_uv_installed. unfold_monad. cbn.
  repeat exec_step. all: within.
Qed.

Lemma run_tests_within w :
  Forall (spawns_within pipeline_commands) (trace (run_tests false w)).
Proof.
  unfold run_tests. unfold_monad. cbn. repeat exec_step. all: within.
Qed.

Lemma run_lint_within w :
  Forall (spawns_within pipeline_commands) (trace (run_lint w)).
Proof.
  unfold run_lint, lint_flake8, lint_black. unfold_monad. cbn.
  repeat exec_step. all: within.
Qed.

Lemma build_package_within w :
  Forall (spawns_within pipeline_commands) (trace (build_package w)).
Proof.
  unfold build_package. unfold_monad. cbn. rewrite clean_build_eq. cbn.
  repeat exec_step. all: within.
Qed.

Lemma run_all_within w :
  Forall (spawns_within pipeline_commands) (trace (run_all w)).
Proof.
  rewrite run_all_eq.
  pose proof (run_steps_forall (spawns_within pipeline_commands) steps w) as H.
  unfold trace in *.
  destruct (run_steps steps w) as [[[[]|e] w1] t1]; cbn [snd] in *.
  all: constructor; [exact I|]; rewrite ?Forall_app; repeat split.
  all: try (apply H; [|intros; exact I]).
  all: try (intros step [<-|[<-|[<-|[<-|[]]]]] w'; cbn [snd];
            [ apply install_dependencies_within | apply run_tests_within
            | apply run_lint_within | apply build_package_within ]).
  by repeat constructor.
Qed.

Lemma spawns_within_spawned cmds tr :
  Forall (spawns_within cmds) tr → Forall (λ cmd, In cmd cmds) (spawned tr).
Proof.
  induction 1 as [|[cmd r|l] tr Hev _ IH]; cbn; [constructor| |done].
  by constructor.
Qed.

(** X8. The [--quick] flag reaches the test command only: every other
    command behaves the same with and without it, never spawns the quick
    test run, and spawns nothing outside the fixed command lines of the
    script. In particular [all --quick] still runs the full test suite. *)
Theorem quick_flag_only_for_test (args : Args) (w : World) :
  command args ≠ Test →
  run_subcommand args w
  = run_subcommand {| command := command args; quick := negb (quick args) |} w
  ∧ Forall (λ cmd, In cmd pipeline_commands)
      (spawned (trace (run_subcommand args w)))
  ∧ ¬ In quick_tests_cmd (spawned (trace (run_subcommand args w))).
Proof.
  intros Hc.
  assert (Forall (spawns_within pipeline_commands)
            (trace (run_subcommand args w))) as H.
  { unfold run_subcommand.
    destruct (command args); try done.
    - apply install_dependencies_within.
    - rewrite clean_build_eq. within.
    - apply build_package_within.
    - apply run_lint_within.
    - apply run_all_within.
    - unfold show_help. unfold_monad. cbn. within. }
  apply spawns_within_spawned in H.
  split; [|split; [exact H|]].
  - unfold run_subcommand. cbn. by destruct (command args).
  - intros Hin. rewrite Forall_forall in H. apply list_elem_of_In in Hin.
    specialize (H _ Hin). cbn in H.
    repeat (destruct H as [H|H]; [discriminate H|]). destruct H.
Qed.

(** [all --quick] in a project where every tool exits with zero. *)
Lemma quick_flag_only_for_test_witness :
  In full_tests_cmd
    (spawned (trace (run_subcommand {| command := All; quick := true |}
                       (all_succeed project_tree))))
  ∧ ¬ In quick_tests_cmd
        (spawned (trace (run_subcommand {| command := All; quick := true |}
                           (all_succeed project_tree)))).
Proof.
  split.
  - vm_compute. tauto.
  - apply (quick_flag_only_for_test {| command := All; quick := true |}
             (all_succeed project_tree)).
    discriminate.
Defined.

(** ** More about the test runner *)

Ltac runner_case :=
  first
    [ rewrite runner_run_command_eq
    | rewrite print_all_eq
    | match goal with
      | |- context [exec ?w ?c ?f] =>
          let rc := fresh "rc" in
          let err := fresh "err" in
          let f' := fresh "f" in
          destruct (exec w c f) as [[|rc err] f'];
          [|destruct (Z.eqb_spec rc 0) as [->|?]]
      | |- context [if negb ?b then _ else _] => destruct b eqn:?
      | |- context [if ?b then _ else _] => destruct b eqn:?
      | |- context [match FS.glob ?d ?p ?f with _ => _ end] =>
          destruct (FS.glob d p f) eqn:?
      end ];
  cbn.

Ltac unfold_main :=
  unfold_runner;
  unfold RunTests.check_test_structure, RunTests.glob_test_files;
  unfold_runner.

Lemma outcomes_app t1 t2 : outcomes (t1 ++ t2) = outcomes t1 ++ outcomes t2.
Proof. apply omap_app. Qed.

Lemma outcomes_announce description cmd : outcomes (announce description cmd) = [].
Proof. unfold announce. by destruct (Str.nonempty description). Qed.

Lemma outcomes_lines ls : outcomes (List.map (λ l, Print (Plain l)) ls) = [].
Proof. by induction ls. Qed.

Lemma outcomes_print l tr : outcomes (Print l :: tr) = outcomes tr.
Proof. reflexivity. Qed.

Lemma outcomes_spawn cmd r tr : outcomes (Spawn cmd r :: tr) = r :: outcomes tr.
Proof. reflexivity. Qed.

Lemma outcomes_nil : outcomes [] = [].
Proof. reflexivity. Qed.

#[local] Arguments outcomes : simpl never.

Ltac read_outcomes :=
  repeat (progress rewrite ?outcomes_app, ?outcomes_announce, ?outcomes_lines,
            ?outcomes_print, ?outcomes_spawn, ?outcomes_nil, ?app_nil_r);
  cbn [app].

Ltac last_is_failure2 :=
  split; [reflexivity|]; split; [zeros|]; split;
  [cbn; first [tauto | congruence | assumption]|reflexivity].

Ltac last_failed2 :=
  first [ solve [eexists [], _; last_is_failure2]
        | solve [eexists [_], _; last_is_failure2]
        | solve [eexists [_; _], _; last_is_failure2] ].

(** X9. The runner stops at the first process that fails and ends as that
    process did: it exits with the code of a process that exited non-zero; a
    process that cannot be found raises, except under [--lint], which
    reports it and returns. *)
Theorem runner_stops_at_first_failure (self : RunTests.TestRunner)
    (args : RunTests.Args) (w : World) :
  let x := RunTests.main self args w in
  Forall exit_zero (outcomes (trace x))
  ∨ ∃ rs r, outcomes (trace x) = rs ++ [r]
            ∧ Forall exit_zero rs ∧ ¬ exit_zero r
            ∧ result x = ends_as args r.
Proof.
  cbv zeta. unfold ends_as, lint_mode. unfold_main. cbn.
  repeat runner_case.
  all: read_outcomes.
  all: first [ left; solve [zeros] | right; last_failed2 ].
Qed.

(** X10. The value given to [--coverage-fail] changes nothing: with any two
    values [main] does the same, in every mode and every world. *)
Theorem coverage_fail_has_no_effect (self : RunTests.TestRunner)
    (args : RunTests.Args) (n : Z) (w : World) :
  RunTests.main self (set_coverage_fail n args) w = RunTests.main self args w.
Proof.
  unfold RunTests.main, RunTests.run_tests, RunTests.run_tests_cmd,
    RunTests.run_tests_description, set_coverage_fail.
  cbn [RunTests.setup RunTests.quick RunTests.integration RunTests.coverage
       RunTests.coverage_fail RunTests.check RunTests.lint RunTests.parallel
       RunTests.verbose RunTests.markers RunTests.tests RunTests.pytest_args].
  destruct (RunTests.setup args); [done|].
  destruct (RunTests.check args); [done|].
  destruct (RunTests.lint args); [done|].
  destruct (RunTests.quick args); [done|].
  destruct (RunTests.integration args); [done|].
  destruct (RunTests.coverage args); done.
Qed.

(** X11. Outside the default mode only the mode counts: two command lines
    that select the same mode make [main] do the same, whatever their other
    flags are. *)
Theorem other_flags_are_ignored (self : RunTests.TestRunner)
    (args args' : RunTests.Args) (w : World) :
  mode_of args = mode_of args' → mode_of args ≠ Default →
  RunTests.main self args w = RunTests.main self args' w.
Proof.
  unfold mode_of, RunTests.main. intros Hm Hd.
  destruct (RunTests.setup args), (RunTests.setup args'); try done;
    try (by repeat case_match).
Qed.

(** [--quick --coverage] against [--quick] alone. *)
Lemma other_flags_are_ignored_witness :
  RunTests.main runner quick_and_coverage (all_succeed project_tree)
  = RunTests.main runner
      {| RunTests.setup := false; RunTests.quick := true;
         RunTests.integration := false; RunTests.coverage := false;
         RunTests.coverage_fail := 85; RunTests.check := false;
         RunTests.lint := false; RunTests.parallel := Some "4";
         RunTests.verbose := true; RunTests.markers := Some "slow";
         RunTests.tests := None; RunTests.pytest_args := None |}
      (all_succeed project_tree).
Proof.
  apply (other_flags_are_ignored runner quick_and_coverage); [reflexivity|].
  discriminate.
Defined.

Ltac differ_line H :=
  cbv beta iota zeta delta
    [String.append success_line requirements_warning] in H;
  discriminate H.

Lemma announce_only_announces ev description cmd :
  In ev (announce description cmd) →
  ev = Print (Plain ("🔧 " +:+ description))
  ∨ ev = Print (Plain ("Running: " +:+ Str.join " " cmd)).
Proof.
  unfold announce. intros H. apply in_app_or in H as [H|H].
  - destruct (Str.nonempty description); [|done].
    destruct H as [<-|[]]. by left.
  - destruct H as [<-|[]]. by right.
Qed.

Lemma listing_only_lists ev names :
  In ev (List.map (λ l, Print (Plain l)) (List.map (λ n, "  - " +:+ n) names)) →
  ∃ n, ev = Print (Plain ("  - " +:+ n)).
Proof.
  intros H. apply in_map_iff in H as (l & <- & H).
  apply in_map_iff in H as (n & <- & _). by exists n.
Qed.

(** The line [H] says is in the trace is none of those the trace has. *)
Ltac absent H :=
  repeat match type of H with
         | In _ (_ ++ _) => apply in_app_or in H as [H|H]
         | In _ (_ :: _) => destruct H as [H|H]; [differ_line H|]
         | In _ (announce _ _) =>
             apply announce_only_announces in H as [H|H]; differ_line H
         | In _ (List.map _ _) =>
             apply listing_only_lists in H as [? H]; differ_line H
         | _ = _ ∨ _ => destruct H as [H|H]; [differ_line H|]
         | In _ [] => destruct H
         | False => destruct H
         end.

Ltac last_line :=
  repeat first [ left; reflexivity | apply in_or_app; right | right ].

(** X12. The runner prints its success line exactly when a test mode ran and
    returned: never after a failure, never under [--setup], [--check] or
    [--lint]. *)
Theorem success_line_means_success (self : RunTests.TestRunner)
    (args : RunTests.Args) (w : World) :
  let x := RunTests.main self args w in
  In success_line (trace x)
  ↔ result x = Ok tt
    ∧ RunTests.setup args = false ∧ RunTests.check args = false
    ∧ RunTests.lint args = false.
Proof.
  cbv zeta. unfold_main. cbn.
  repeat runner_case.
  all: first
    [ solve [split; [intros _; repeat split; reflexivity
                    |intros _; cbn; last_line]]
    | split; [intros H; exfalso; cbn in H; absent H
             |intros (H1 & H2 & H3 & H4); congruence] ].
Qed.

(** X13. [--check] only looks: it spawns nothing and leaves the world as it
    is; it exits with 1 exactly when [tests/] has no [test_*.py] file. A
    missing requirements file is warned about, when there are test files,
    and is no failure. *)
Theorem check_only_inspects (self : RunTests.TestRunner)
    (args : RunTests.Args) (w : World) :
  RunTests.setup args = false → RunTests.check args = true →
  let x := RunTests.main self args w in
  spawned (trace x) = []
  ∧ world x = w
  ∧ result x = match test_files w with
               | [] => Raise (SystemExit 1)
               | _ :: _ => Ok tt
               end
  ∧ (In requirements_warning (trace x)
     ↔ test_files w ≠ [] ∧ FS.exists_ requirements (fs w) = false).
Proof.
  intros Hs Hc. cbv zeta. unfold test_files, requirements. unfold_main.
  rewrite Hs, Hc. cbn.
  destruct (FS.glob RunTests.test_dir "test_*.py" (fs w)) as [|p ps]; cbn.
  - split; [reflexivity|]. split; [reflexivity|]. split; [reflexivity|].
    split.
    + intros H. exfalso. absent H.
    + intros [H _]. done.
  - rewrite print_all_eq. cbn.
    destruct (FS.exists_ ["tests"; "conftest.py"] (fs w)); cbn;
      destruct (FS.exists_ ["tests"; "test_requirements.txt"] (fs w)); cbn.
    all: change (?a :: ?b :: ?c :: ?d :: ?l ++ ?r)
           with ([a; b; c; d] ++ l ++ r).
    all: rewrite !spawned_app, spawned_lines.
    all: split; [reflexivity|]; split; [reflexivity|];
      split; [reflexivity|]; split.
    all: first
      [ solve [intros _; split; [discriminate|reflexivity]]
      | solve [intros Hin; exfalso; absent Hin]
      | solve [intros _; last_line]
      | solve [intros [_ Hex]; discriminate Hex] ].
Qed.

(** A project with tests and no requirements file passes the check, with
    the warning. *)
Lemma check_only_inspects_witness :
  let x := RunTests.main runner check_only
             (all_succeed tests_without_requirements) in
  spawned (trace x) = []
  ∧ result x = Ok tt
  ∧ In requirements_warning (trace x).
Proof.
  destruct (check_only_inspects runner check_only
              (all_succeed tests_without_requirements) eq_refl eq_refl)
    as (Hsp & _ & Hres & Hwarn).
  split; [exact Hsp|]. split; [exact Hres|].
  apply Hwarn. split; [discriminate|reflexivity].
Defined.



(** X15. Under [clean_environment] the test starts in the environment of the
    session without the variables of the cleanup list: every other variable
    is there with its value. *)
Theorem clean_environment_keeps_other_variables
    (env : gmap string string) (var : string) :
  snd (Conftest.clean_environment_setup env) !! var
  = if decide (var ∈ Conftest.env_vars_to_clean) then None else env !! var.
Proof.
  unfold Conftest.clean_environment_setup. cbn [snd].
  apply fold_pop_lookup.
Qed.

Ltac git_step :=
  match goal with
  | |- context [exec ?w ?c ?f] =>
      let rc := fresh "rc" in
      let err := fresh "err" in
      let f' := fresh "f" in
      destruct (exec w c f) as [[|rc err] f'];
      [|destruct (Z.eqb_spec rc 0) as [->|?]]
  end;
  cbn.

(** X16. [git_project_dir] hands the directory to the test only when all four
    git commands exited with zero, run in the order init, user name, user
    email, remote. The first command that fails is the last one spawned, and
    its failure is raised: [CalledProcessError] with its command and code,
    or [FileNotFoundError] when git is missing. *)
Theorem git_project_dir_all_or_nothing (temp_dir : string) (w : World) :
  let x := Fixtures.git_project_dir temp_dir w in
  (result x = Ok temp_dir
   ∧ spawned (trace x)
     = [ Fixtures.git_init; Fixtures.git_user_name; Fixtures.git_user_email;
         Fixtures.git_remote_add ]
   ∧ Forall exit_zero (outcomes (trace x)))
  ∨ ∃ cmds cmd rs r,
      spawned (trace x) = cmds ++ [cmd]
      ∧ sublist (spawned (trace x))
          [ Fixtures.git_init; Fixtures.git_user_name;
            Fixtures.git_user_email; Fixtures.git_remote_add ]
      ∧ outcomes (trace x) = rs ++ [r]
      ∧ Forall exit_zero rs ∧ ¬ exit_zero r
      ∧ result x = match r with
                   | Exited c err => Raise (CalledProcessError cmd c err)
                   | NotFound => Raise FileNotFoundError
                   end.
Proof.
  cbv zeta. unfold Fixtures.git_project_dir. unfold_monad. cbn.
  repeat git_step.
  all: read_outcomes.
  all: first
    [ left; split; [reflexivity|]; split; [reflexivity|]; solve [zeros]
    | right;
      first
        [ solve [eexists [], _, [], _; repeat split;
                 first [reflexivity | solve [in_order] | solve [zeros] | cbn; tauto
                       | cbn; congruence | assumption]]
        | solve [eexists [_], _, [_], _; repeat split;
                 first [reflexivity | solve [in_order] | solve [zeros] | cbn; tauto
                       | cbn; congruence | assumption]]
        | solve [eexists [_; _], _, [_; _], _; repeat split;
                 first [reflexivity | solve [in_order] | solve [zeros] | cbn; tauto
                       | cbn; congruence | assumption]]
        | solve [eexists [_; _; _], _, [_; _; _], _; repeat split;
                 first [reflexivity | solve [in_order] | solve [zeros] | cbn; tauto
                       | cbn; congruence | assumption]] ] ].
Qed.

(** X17. The editor mock answers with code 0 exactly for a command that
    mentions [code] or [cursor] together with [--version] or
    [--list-extensions]; anything else gets code 1 and "command not found".
    A command that mentions [code] and [--version] gets the version of VS
    Code, whatever else it mentions. *)
Theorem mock_editor_answers (cmd : list string) :
  let r := Fixtures.mock_run_side_effect cmd in
  (Fixtures.mock_returncode r = 0
   ↔ ("code" ∈ cmd ∨ "cursor" ∈ cmd)
     ∧ ("--version" ∈ cmd ∨ "--list-extensions" ∈ cmd))
  ∧ (Fixtures.mock_returncode r = 0 ∧ Fixtures.mock_stderr r = EmptyString
     ∨ Fixtures.mock_returncode r = 1
       ∧ Fixtures.mock_stderr r = "command not found")
  ∧ ("code" ∈ cmd → "--version" ∈ cmd →
     Fixtures.mock_stdout r = "1.74.0" +:+ Fixtures.newline).
Proof.
  cbv zeta. unfold Fixtures.mock_run_side_effect, Fixtures.mentions.
  repeat case_bool_decide; cbn; split_and!; try tauto; try (intros; tauto);
    try (by left); try (by right); split; intros; try tauto; try done.
Qed.

(** The git fixture at work: the remote is there already. *)
Example git_project_dir_remote_exists :
  result (Fixtures.git_project_dir "/tmp/tmpab12" (remote_exists []))
  = Raise (CalledProcessError Fixtures.git_remote_add 3
             "error: remote origin already exists.").
Proof. reflexivity. Qed.

(** X18. When pytest cannot be imported, a test mode installs the test
    requirements first and runs the selected tests only after that
    installation exited with zero. *)
Theorem missing_pytest_installs_first (self : RunTests.TestRunner)
    (args : RunTests.Args) (w : World) :
  RunTests.setup args = false → RunTests.check args = false →
  RunTests.lint args = false →
  FS.exists_ requirements (fs w) = true →
  pytest_importable w = false →
  let x := RunTests.main self args w in
  (spawned (trace x) = [pip_requirements w]
   ∧ ¬ exit_zero (fst (exec w (pip_requirements w) (fs w)))
   ∧ result x = ends_as args (fst (exec w (pip_requirements w) (fs w))))
  ∨ (spawned (trace x)
     = [pip_requirements w; selected_cmd self args (executable w)]
     ∧ exit_zero (fst (exec w (pip_requirements w) (fs w)))).
Proof.
  intros Hs Hc Hl Hreq Himp. cbv zeta.
  unfold selected_cmd, pip_requirements, ends_as, lint_mode. unfold_runner.
  rewrite Hs, Hc, Hl. cbn. unfold requirements in Hreq. cbn in Hreq.
  rewrite Hreq. cbn. rewrite Himp. cbn.
  rewrite runner_run_command_eq.
  destruct (exec w _ (fs w)) as [[|rc err] f1]; cbn;
    [|destruct (Z.eqb_spec rc 0) as [->|Hrc]; cbn].
  - left. rewrite ?app_nil_r, spawned_app, spawned_announce.
    repeat split; tauto.
  - right. split; [|reflexivity].
    destruct (RunTests.quick args); [|destruct (RunTests.integration args);
      [|destruct (RunTests.coverage args)]]; cbn.
    all: repeat runner_step.
    all: rewrite ?app_nil_r, ?spawned_app, ?spawned_announce; reflexivity.
  - left. rewrite ?app_nil_r, spawned_app, spawned_announce.
    repeat split; tauto.
Qed.

Lemma missing_pytest_installs_first_witness :
  spawned (trace (RunTests.main runner quick_and_coverage
                    (pytest_missing project_tree)))
  = [ ["python3"; "-m"; "pip"; "install"; "-r"; "tests/test_requirements.txt"];
      RunTests.quick_cmd runner "python3" ].
Proof.
  destruct (missing_pytest_installs_first runner quick_and_coverage
              (pytest_missing project_tree))
    as [(_ & Hnz & _)|[Hsp _]]; try reflexivity.
Defined.

Ltac other_lines :=
  repeat (constructor;
          [ let H := fresh in
            intros H;
            cbv beta iota zeta delta [String.append pipeline_success] in H;
            discriminate H |]);
  constructor.

Lemma install_dependencies_quiet w :
  Forall (λ ev, ev ≠ pipeline_success) (trace (install_dependencies w)).
Proof.
  unfold install_dependencies, check_uv_installed. unfold_monad. cbn.
  repeat exec_step. all: other_lines.
Qed.

Lemma run_tests_quiet w :
  Forall (λ ev, ev ≠ pipeline_success) (trace (run_tests false w)).
Proof.
  unfold run_tests. unfold_monad. cbn. repeat exec_step. all: other_lines.
Qed.

Lemma run_lint_quiet w :
  Forall (λ ev, ev ≠ pipeline_success) (trace (run_lint w)).
Proof.
  unfold run_lint, lint_flake8, lint_black. unfold_monad. cbn.
  repeat exec_step. all: other_lines.
Qed.

Lemma build_package_quiet w :
  Forall (λ ev, ev ≠ pipeline_success) (trace (build_package w)).
Proof.
  unfold build_package. unfold_monad. cbn. rewrite clean_build_eq. cbn.
  repeat exec_step. all: other_lines.
Qed.

(** X19. [run_all] prints its closing success line exactly when it returns
    [True], that is when every step returned [True]; after a failed step the
    line never appears. *)
Theorem pipeline_success_line (w : World) :
  In pipeline_success (trace (run_all w)) ↔ result (run_all w) = Ok true.
Proof.
  rewrite run_all_eq.
  assert (Forall (λ ev, ev ≠ pipeline_success) (trace (run_steps steps w)))
    as Hq.
  { apply run_steps_forall.
    - intros step [<-|[<-|[<-|[<-|[]]]]] w'; cbn [snd].
      + apply install_dependencies_quiet.
      + apply run_tests_quiet.
      + apply run_lint_quiet.
      + apply build_package_quiet.
    - intros step_name H. discriminate H. }
  unfold trace, result in *.
  destruct (run_steps steps w) as [[[[]|e] w1] t1]; cbn [fst snd] in *.
  - split; [done|]. intros _. right. apply in_or_app. right. by left.
  - split; [|discriminate]. intros [H|H]; [discriminate H|].
    rewrite Forall_forall in Hq. apply list_elem_of_In in H.
    by destruct (Hq _ H).
  - split; [|discriminate]. intros [H|H]; [discriminate H|].
    rewrite Forall_forall in Hq. apply list_elem_of_In in H.
    by destruct (Hq _ H).
Qed.
